(** * Ferguson asset manager: a shallow embedding of [lib/assets.js]

    The development follows the latest [Manager] of [src/lib/assets.js]
    (the one with compilers, compressors and the in-flight registry) and
    the part of [src/lib/utils.js] that is present ([escapeRegex]).

    Conventions of the embedding.
    - A JavaScript string is a [string]; [toLowerCase] acts on the ASCII
      letters.
    - A JavaScript object used as a dictionary is a [gmap] when only
      lookups matter and an association list when the enumeration order
      of [for .. in] matters (the asset map).  The maps whose keys come
      from file names, identifiers, URLs and the configuration
      ([this.assets], [this.pendingAssets], [this.compiledAssets],
      [this.compilingNow], [this.reverseCompilerIndex]) are objects
      written [{}]: where the code tests [in] or reads a property of
      them, the embedding also looks at the names that they inherit from
      [Object.prototype].  The maps that the code looks up by a file
      extension, which is empty or starts with a dot, and the parsed
      manifest, where an inherited value has no [mtime] and is passed
      over like an absent entry, are looked up by their own keys.
    - Node's [path] module is modelled for POSIX paths, after the
      documented behaviour of [path.normalize], [path.join],
      [path.dirname], [path.basename] and [path.extname].
    - Code that throws returns an [outcome]; code that emits events
      threads the manager, which records them. *)

From Stdlib Require Import String Ascii List ZArith Lia Bool DecimalString.
From stdpp Require Import base gmap strings.
Import ListNotations.

(* ===================================================================== *)
(** * Part I: the embedding *)
(* ===================================================================== *)

(** ** JavaScript strings *)

Module Js.

Definition chars (s : string) : list ascii := list_ascii_of_string s.
Definition str (l : list ascii) : string := string_of_list_ascii l.

Definition lower_ascii (c : ascii) : ascii :=
  let n := nat_of_ascii c in
  if (65 <=? n)%nat && (n <=? 90)%nat then ascii_of_nat (n + 32) else c.

(** [s.toLowerCase()] *)
Fixpoint toLowerCase (s : string) : string :=
  match s with
  | EmptyString => EmptyString
  | String c r => String (lower_ascii c) (toLowerCase r)
  end.

(** [s.indexOf(c) >= 0] for a one-character [c] *)
Fixpoint contains (c : ascii) (s : string) : bool :=
  match s with
  | EmptyString => false
  | String d r => Ascii.eqb c d || contains c r
  end.

(** [s[0] === c] *)
Definition firstIs (c : ascii) (s : string) : bool :=
  match s with
  | String d _ => Ascii.eqb c d
  | EmptyString => false
  end.

(** [s[s.length - 1] === c] *)
Fixpoint lastIs (c : ascii) (s : string) : bool :=
  match s with
  | EmptyString => false
  | String d EmptyString => Ascii.eqb c d
  | String _ r => lastIs c r
  end.

(** The clamping of an index argument of [slice]. *)
Definition clampIndex (len i : Z) : Z :=
  if (i <? 0)%Z then Z.max (len + i) 0 else Z.min i len.

(** [s.slice(b, e)] *)
Definition slice (s : string) (b e : Z) : string :=
  let len := Z.of_nat (String.length s) in
  let b' := clampIndex len b in
  let e' := clampIndex len e in
  String.substring (Z.to_nat b') (Z.to_nat (e' - b')) s.

(** [s.slice(b)] *)
Definition sliceFrom (s : string) (b : Z) : string :=
  slice s b (Z.of_nat (String.length s)).

(** [s.split(sep)] for a one-character separator *)
Fixpoint split (sep : ascii) (s : string) : list string :=
  match s with
  | EmptyString => [EmptyString]
  | String c r =>
      if Ascii.eqb c sep then EmptyString :: split sep r
      else match split sep r with
           | h :: t => String c h :: t
           | [] => [String c EmptyString]
           end
  end.

(** [l.join(sep)] on an array of strings *)
Fixpoint join (sep : string) (l : list string) : string :=
  match l with
  | [] => EmptyString
  | [x] => x
  | x :: r => x +:+ sep +:+ join sep r
  end.

(** [s] ends with [suffix] *)
Definition endsWith (s suffix : string) : bool :=
  let n := String.length s in
  let k := String.length suffix in
  (k <=? n)%nat && String.eqb (String.substring (n - k) k s) suffix.

(** Truthiness of a string: only the empty string is falsy. *)
Definition truthy (s : string) : bool :=
  match s with
  | EmptyString => false
  | _ => true
  end.

(** The double quote, and a string between double quotes. *)
Definition dq : string := String (ascii_of_nat 34) EmptyString.
Definition quoted (s : string) : string := dq +:+ s +:+ dq.

(** The names of the properties that an object written [{}] inherits
    from [Object.prototype]: [k in {}] is true for them, and [{}[k]] is a
    function or, for [__proto__], the prototype itself. *)
Definition objectPrototype : list string :=
  [ "constructor"; "hasOwnProperty"; "isPrototypeOf"; "propertyIsEnumerable";
    "toLocaleString"; "toString"; "valueOf"; "__proto__";
    "__defineGetter__"; "__defineSetter__"; "__lookupGetter__"; "__lookupSetter__" ].

Definition inherited (k : string) : bool :=
  existsb (String.eqb k) objectPrototype.

(** The [name] of an inherited value: a function is named after its
    property, [constructor] is the function [Object], and the prototype
    has no [name]. *)
Definition inheritedName (k : string) : option string :=
  if String.eqb k "__proto__" then None
  else if String.eqb k "constructor" then Some "Object"
  else Some k.

Fixpoint takeWhile {A} (p : A -> bool) (l : list A) : list A :=
  match l with
  | [] => []
  | x :: r => if p x then x :: takeWhile p r else []
  end.

Fixpoint dropWhile {A} (p : A -> bool) (l : list A) : list A :=
  match l with
  | [] => []
  | x :: r => if p x then dropWhile p r else l
  end.

End Js.

(** ** Node's [path] module (POSIX) *)

Module Path.

Definition isSlash (c : ascii) : bool := Ascii.eqb c "/".
Definition notSlash (c : ascii) : bool := negb (isSlash c).
Definition isDot (c : ascii) : bool := Ascii.eqb c ".".
Definition notDot (c : ascii) : bool := negb (isDot c).

(** One step of the segment walk of [path.normalize]: [stack] holds the
    segments kept so far, last one first. *)
Definition pushSegment (allowAboveRoot : bool) (stack : list string) (seg : string)
  : list string :=
  if String.eqb seg "" || String.eqb seg "." then stack
  else if String.eqb seg ".." then
    match stack with
    | top :: below =>
        if String.eqb top ".." then ".." :: stack else below
    | [] => if allowAboveRoot then [".."] else []
    end
  else seg :: stack.

Definition normalizeSegments (allowAboveRoot : bool) (segs : list string) : list string :=
  rev (fold_left (pushSegment allowAboveRoot) segs []).

(** [path.normalize(p)] *)
Definition normalize (p : string) : string :=
  match p with
  | EmptyString => "."
  | _ =>
      let isAbsolute := Js.firstIs "/" p in
      let trailing := Js.lastIs "/" p in
      let body := Js.join "/" (normalizeSegments (negb isAbsolute) (Js.split "/" p)) in
      match body with
      | EmptyString => if isAbsolute then "/" else if trailing then "./" else "."
      | _ =>
          let body' := if trailing then body +:+ "/" else body in
          if isAbsolute then "/" +:+ body' else body'
      end
  end.

(** [path.join(a, b)]: the empty arguments are left out, the rest is
    joined with a slash and normalised. *)
Definition join (a b : string) : string :=
  normalize (Js.join "/" (List.filter Js.truthy [a; b])).

(** [path.dirname(p)] *)
Definition dirname (p : string) : string :=
  match p with
  | EmptyString => "."
  | String c0 rest =>
      let hasRoot := isSlash c0 in
      let r1 := Js.dropWhile isSlash (rev (Js.chars rest)) in
      let r2 := Js.dropWhile notSlash r1 in
      match r2 with
      | [] => if hasRoot then "/" else "."
      | _ :: before =>
          match before with
          | [] => if hasRoot then "//" else String c0 EmptyString
          | _ => String c0 (Js.str (rev before))
          end
      end
  end.

(** [path.basename(p)] *)
Definition basename (p : string) : string :=
  Js.str (rev (Js.takeWhile notSlash (Js.dropWhile isSlash (rev (Js.chars p))))).

(** [path.basename(p, ext)] *)
Definition basenameExt (p ext : string) : string :=
  let f := basename p in
  if Js.truthy ext && (String.length ext <=? String.length p)%nat then
    if String.eqb ext p then ""
    else if Js.endsWith f ext && negb (String.eqb f ext)
         then String.substring 0 (String.length f - String.length ext) f
         else f
  else f.

(** [path.extname(p)]: from the last dot of the basename, unless that
    dot starts the basename or the basename is [".."]. *)
Definition extname (p : string) : string :=
  match basename p with
  | EmptyString => ""
  | String c0 rest =>
      if negb (Js.contains "." rest) then ""
      else if String.eqb (String c0 rest) ".." then ""
      else String "." (Js.str (rev (Js.takeWhile notDot (rev (Js.chars rest)))))
  end.

End Path.

(** ** The regular expressions of the manager *)

Module RegExp.

(** The pattern language that [new RegExp('^' + escapeRegex(prefix) +
    '-[0-9a-f]+?-')] can produce: anchors, literal characters and the one
    quantified class. *)
Inductive atom :=
| Bol                       (* ^ *)
| Eol                       (* $ *)
| Lit (c : ascii)           (* a literal or an escaped character *)
| HexPlus.                  (* [0-9a-f]+? *)

Definition hexClass : string := "[0-9a-f]+?".

Definition isSyntaxChar (c : ascii) : bool :=
  Js.contains c ".*+?|()[]{}".

Definition isAlnum (c : ascii) : bool :=
  let n := nat_of_ascii c in
  ((48 <=? n) && (n <=? 57) || (65 <=? n) && (n <=? 90) || (97 <=? n) && (n <=? 122))%nat.

Definition stripPrefix (p s : string) : option string :=
  if String.prefix p s
  then Some (String.substring (String.length p) (String.length s - String.length p) s)
  else None.

(** Reading a pattern source.  [None]: the source is outside the
    modelled language (a class escape such as [\d], an unescaped
    quantifier or group). *)
Fixpoint parse (fuel : nat) (src : string) : option (list atom) :=
  match fuel with
  | O => None
  | S fuel =>
      match src with
      | EmptyString => Some []
      | String c rest =>
          if Ascii.eqb c "^" then cons Bol <$> parse fuel rest
          else if Ascii.eqb c "$" then cons Eol <$> parse fuel rest
          else if Ascii.eqb c "\" then
            match rest with
            | String d rest' =>
                if isAlnum d then None else cons (Lit d) <$> parse fuel rest'
            | EmptyString => None
            end
          else if Ascii.eqb c "[" then
            match stripPrefix hexClass src with
            | Some rest' => cons HexPlus <$> parse fuel rest'
            | None => None
            end
          else if isSyntaxChar c then None
          else cons (Lit c) <$> parse fuel rest
      end
  end.

Definition compile (src : string) : option (list atom) :=
  parse (S (String.length src)) src.

Definition isHex (c : ascii) : bool :=
  let n := nat_of_ascii c in
  ((48 <=? n) && (n <=? 57) || (97 <=? n) && (n <=? 102))%nat.

(** Does the pattern match a prefix of [s]?  [atStart] tells whether [s]
    is the whole subject. *)
Fixpoint matchHere (atoms : list atom) (s : string) (atStart : bool) : bool :=
  match atoms with
  | [] => true
  | Bol :: r => atStart && matchHere r s atStart
  | Eol :: r => negb (Js.truthy s) && matchHere r s atStart
  | Lit c :: r =>
      match s with
      | String d s' => Ascii.eqb c d && matchHere r s' false
      | EmptyString => false
      end
  | HexPlus :: r =>
      (fix more (s : string) : bool :=
         match s with
         | String d s' => isHex d && (matchHere r s' false || more s')
         | EmptyString => false
         end) s
  end.

Fixpoint search (atoms : list atom) (s : string) (atStart : bool) : bool :=
  matchHere atoms s atStart ||
  match s with
  | String _ s' => search atoms s' false
  | EmptyString => false
  end.

(** [re.test(s)] for a pattern without flags *)
Definition test (atoms : list atom) (s : string) : bool := search atoms s true.

End RegExp.

(** ** [lib/utils.js] *)

Module Utils.

(** [utils.escapeRegex]: every character of [.*+?|()[]{}] gets a
    backslash in front. *)
Fixpoint escapeRegex (s : string) : string :=
  match s with
  | EmptyString => EmptyString
  | String c r =>
      if RegExp.isSyntaxChar c then String "\" (String c (escapeRegex r))
      else String c (escapeRegex r)
  end.

End Utils.

(** ** The host: Node's [crypto], [minimatch] and [util.format]

    The manager calls three libraries that are not part of the
    repository.  The embedding takes them as a record, so that every
    theorem holds for whatever they compute; [Md5] and [Node] below give
    the instance used to evaluate the model on concrete inputs. *)

Record Host := {
  (** [crypto.createHash(algorithm).update(data).digest('hex')] *)
  createHash : string -> string -> string;
  (** [minimatch(filename, pattern)] *)
  minimatch : string -> string -> bool;
  (** [util.format(template, argument)] *)
  format1 : string -> string -> string
}.

(** *** MD5 (RFC 1321), the default [hash] option *)

Module Md5.

Local Open Scope N_scope.

Definition mask32 : N := 0xffffffff.
Definition add32 (a b : N) : N := N.land (a + b) mask32.
Definition not32 (a : N) : N := N.lxor a mask32.
Definition rotl32 (x c : N) : N :=
  N.land (N.lor (N.shiftl x c) (N.shiftr x (32 - c))) mask32.

Definition K : list N :=
  [ 0xd76aa478; 0xe8c7b756; 0x242070db; 0xc1bdceee;
    0xf57c0faf; 0x4787c62a; 0xa8304613; 0xfd469501;
    0x698098d8; 0x8b44f7af; 0xffff5bb1; 0x895cd7be;
    0x6b901122; 0xfd987193; 0xa679438e; 0x49b40821;
    0xf61e2562; 0xc040b340; 0x265e5a51; 0xe9b6c7aa;
    0xd62f105d; 0x02441453; 0xd8a1e681; 0xe7d3fbc8;
    0x21e1cde6; 0xc33707d6; 0xf4d50d87; 0x455a14ed;
    0xa9e3e905; 0xfcefa3f8; 0x676f02d9; 0x8d2a4c8a;
    0xfffa3942; 0x8771f681; 0x6d9d6122; 0xfde5380c;
    0xa4beea44; 0x4bdecfa9; 0xf6bb4b60; 0xbebfbc70;
    0x289b7ec6; 0xeaa127fa; 0xd4ef3085; 0x04881d05;
    0xd9d4d039; 0xe6db99e5; 0x1fa27cf8; 0xc4ac5665;
    0xf4292244; 0x432aff97; 0xab9423a7; 0xfc93a039;
    0x655b59c3; 0x8f0ccc92; 0xffeff47d; 0x85845dd1;
    0x6fa87e4f; 0xfe2ce6e0; 0xa3014314; 0x4e0811a1;
    0xf7537e82; 0xbd3af235; 0x2ad7d2bb; 0xeb86d391 ].

Definition shifts : list N :=
  [ 7; 12; 17; 22; 7; 12; 17; 22; 7; 12; 17; 22; 7; 12; 17; 22;
    5; 9; 14; 20; 5; 9; 14; 20; 5; 9; 14; 20; 5; 9; 14; 20;
    4; 11; 16; 23; 4; 11; 16; 23; 4; 11; 16; 23; 4; 11; 16; 23;
    6; 10; 15; 21; 6; 10; 15; 21; 6; 10; 15; 21; 6; 10; 15; 21 ].

Record regs := { rA : N; rB : N; rC : N; rD : N }.

Definition init : regs :=
  {| rA := 0x67452301; rB := 0xefcdab89; rC := 0x98badcfe; rD := 0x10325476 |}.

(** The sixteen little-endian words of a 64-byte block. *)
Fixpoint words (n : nat) (bytes : list N) : list N :=
  match n, bytes with
  | S n, b0 :: b1 :: b2 :: b3 :: r =>
      (b0 + 256 * (b1 + 256 * (b2 + 256 * b3))) :: words n r
  | _, _ => []
  end.

Definition step (M : list N) (r : regs) (i : nat) : regs :=
  let '(f, g) :=
    if (i <? 16)%nat then
      (N.lor (N.land (rB r) (rC r)) (N.land (not32 (rB r)) (rD r)), i)
    else if (i <? 32)%nat then
      (N.lor (N.land (rD r) (rB r)) (N.land (not32 (rD r)) (rC r)),
       (5 * i + 1) mod 16)%nat
    else if (i <? 48)%nat then
      (N.lxor (rB r) (N.lxor (rC r) (rD r)), (3 * i + 5) mod 16)%nat
    else
      (N.lxor (rC r) (N.lor (rB r) (not32 (rD r))), (7 * i) mod 16)%nat in
  let f' := add32 (add32 (add32 f (rA r)) (nth i K 0)) (nth g M 0) in
  {| rA := rD r; rD := rC r; rC := rB r;
     rB := add32 (rB r) (rotl32 f' (nth i shifts 0)) |}.

Definition block (r : regs) (bytes : list N) : regs :=
  let r' := fold_left (step (words 16 bytes)) (seq 0 64) r in
  {| rA := add32 (rA r) (rA r'); rB := add32 (rB r) (rB r');
     rC := add32 (rC r) (rC r'); rD := add32 (rD r) (rD r') |}.

Fixpoint blocks (n : nat) (r : regs) (bytes : list N) : regs :=
  match n with
  | O => r
  | S n => blocks n (block r (firstn 64 bytes)) (skipn 64 bytes)
  end.

Fixpoint le_bytes (n : nat) (x : N) : list N :=
  match n with
  | O => []
  | S n => (x mod 256) :: le_bytes n (x / 256)
  end.

Definition pad (msg : list N) : list N :=
  let len := length msg in
  let zeros := ((119 - len mod 64) mod 64)%nat in
  msg ++ [128] ++ repeat 0 zeros ++ le_bytes 8 (8 * N.of_nat len).

Definition hexDigit (d : N) : ascii :=
  if d <? 10 then ascii_of_N (48 + d) else ascii_of_N (87 + d).

Definition hexByte (b : N) : list ascii := [hexDigit (b / 16); hexDigit (b mod 16)].

Definition digest (r : regs) : string :=
  Js.str (flat_map hexByte
            (le_bytes 4 (rA r) ++ le_bytes 4 (rB r) ++ le_bytes 4 (rC r) ++ le_bytes 4 (rD r))).

(** [md5(data)], as a lowercase hex digest. *)
Definition md5 (data : string) : string :=
  let padded := pad (map N_of_ascii (Js.chars data)) in
  digest (blocks (length padded / 64) init padded).

End Md5.

(** *** The instance used for evaluation *)

Module Node.

(** A matcher for patterns made of literal characters, [?] and [*]
    (neither crosses a slash); on such patterns it answers as
    [minimatch] does for file names that do not start with a dot. *)
Fixpoint wildcard (fuel : nat) (name pattern : string) : bool :=
  match fuel with
  | O => false
  | S fuel =>
      match pattern, name with
      | EmptyString, EmptyString => true
      | EmptyString, String _ _ => false
      | String p pattern', _ =>
          if Ascii.eqb p "*" then
            wildcard fuel name pattern' ||
            match name with
            | String c name' => negb (Ascii.eqb c "/") && wildcard fuel name' pattern
            | EmptyString => false
            end
          else
            match name with
            | String c name' =>
                (if Ascii.eqb p "?" then negb (Ascii.eqb c "/") else Ascii.eqb p c)
                && wildcard fuel name' pattern'
            | EmptyString => false
            end
      end
  end.

(** [util.format(template, argument)] for a template whose directives
    are [%s] and [%%]: the first [%s] takes the argument; without one the
    argument is appended after a space. *)
Fixpoint formatWith (template argument : string) (used : bool) : string :=
  match template with
  | EmptyString => if used then "" else " " +:+ argument
  | String c rest =>
      match rest with
      | String d rest' =>
          if Ascii.eqb c "%" && Ascii.eqb d "s" && negb used
          then argument +:+ formatWith rest' argument true
          else if Ascii.eqb c "%" && Ascii.eqb d "%"
          then String "%" (formatWith rest' argument used)
          else String c (formatWith rest argument used)
      | EmptyString => String c (formatWith rest argument used)
      end
  end.

(** The instance knows MD5 only, the default of the [hash] option. *)
Definition host : Host := {|
  createHash := fun algorithm data => Md5.md5 data;
  minimatch := fun name pattern =>
    wildcard (S (String.length name + String.length pattern)) name pattern;
  format1 := fun template argument => formatWith template argument false
|}.

End Node.

(** ** Values *)

(** What [JSON.parse] can return. *)
#[warnings="-register-all"]
Inductive json :=
| JNull
| JBool (b : bool)
| JNum (n : Z)
| JStr (s : string)
| JArr (items : list json)
| JObj (fields : list (string * json)).

(** A value that may be [undefined]. *)
Definition value := option json.

Module Value.

(** [String(v)] *)
Fixpoint toString (j : json) : string :=
  match j with
  | JNull => "null"
  | JBool b => if b then "true" else "false"
  | JNum n => NilZero.string_of_int (Z.to_int n)
  | JStr s => s
  | JArr items =>
      Js.join "," (map (fun i => match i with JNull => "" | _ => toString i end) items)
  | JObj _ => "[object Object]"
  end.

(** An element as [Array.prototype.join] prints it: [undefined] and
    [null] give the empty string. *)
Definition joinString (v : value) : string :=
  match v with
  | None | Some JNull => ""
  | Some j => toString j
  end.

(** [typeof v] for a parsed value *)
Definition typeof (j : json) : string :=
  match j with
  | JNull | JArr _ | JObj _ => "object"
  | JBool _ => "boolean"
  | JNum _ => "number"
  | JStr _ => "string"
  end.

End Value.

(** Exceptions and results.  The messages of the [TypeError]s that the
    engine raises are in the wording of V8 and of Node's [path]. *)
Inductive exn :=
| Error (message : string)
| TypeError (message : string).

Definition message (e : exn) : string :=
  match e with
  | Error s | TypeError s => s
  end.

Inductive outcome (A : Type) :=
| Return (a : A)
| Throw (e : exn).
Arguments Return {A} a.
Arguments Throw {A} e.

(** The two arguments of a Node callback: an error or a value. *)
Inductive result (A : Type) :=
| Ok (a : A)
| Err (message : string).
Arguments Ok {A} a.
Arguments Err {A} message.

(** ** Ordered dictionaries: objects whose keys are enumerated *)

Module Obj.
Section Obj.
Context {V : Type}.

Fixpoint lookup (k : string) (o : list (string * V)) : option V :=
  match o with
  | [] => None
  | (k', v) :: r => if String.eqb k k' then Some v else lookup k r
  end.

(** [k in o] *)
Definition has (k : string) (o : list (string * V)) : bool :=
  match lookup k o with
  | Some _ => true
  | None => false
  end.

(** [o[k] = v]: an existing key keeps its place, a new one goes last. *)
Fixpoint set (k : string) (v : V) (o : list (string * V)) : list (string * V) :=
  match o with
  | [] => [(k, v)]
  | (k', v') :: r => if String.eqb k k' then (k, v) :: r else (k', v') :: set k v r
  end.

(** [delete o[k]] *)
Fixpoint remove (k : string) (o : list (string * V)) : list (string * V) :=
  match o with
  | [] => []
  | (k', v') :: r => if String.eqb k k' then r else (k', v') :: remove k r
  end.

(** The keys in the order of [for (k in o)]. *)
Definition keys (o : list (string * V)) : list string := map fst o.

End Obj.
End Obj.

(** ** The data model *)

Module Asset.
Record t := { name : string; mtime : Z; hash : value }.
End Asset.

(** A value read from the asset map [this.assets], which is written
    [{}]: the object of an indexed file, or what the map inherits from
    [Object.prototype] under the key.  An inherited value has no [hash]
    and no [mtime]. *)
Module Member.
Inductive t :=
| Indexed (file : Asset.t)
| Inherited (key : string).

(** [asset.hash] *)
Definition hash (a : t) : value :=
  match a with
  | Indexed file => Asset.hash file
  | Inherited _ => None
  end.

(** [asset.name], [None] standing for [undefined] *)
Definition name (a : t) : option string :=
  match a with
  | Indexed file => Some (Asset.name file)
  | Inherited key => Js.inheritedName key
  end.
End Member.

Module Compiler.
(** [compile] stands for the callback-passing compile function: the
    source text gives an error or the compiled text. *)
Record t := { output : string; compile : string -> result string; extname : string }.
End Compiler.

(** [options.include] and [options.dependencies]: one pattern or an
    array of patterns. *)
Inductive globs :=
| GOne (pattern : string)
| GMany (patterns : list string).

Definition attrs := list (string * string).

(** The options of one asset definition. *)
Module Opts.
Record t := {
  include : option globs;
  dependencies : option globs;
  prefix : option string;
  attributes : option attrs
}.
Definition empty : t :=
  {| include := None; dependencies := None; prefix := None; attributes := None |}.
End Opts.

(** A tag formatter, closed over the manager options it reads. *)
Definition Formatter := string -> attrs -> string.
Definition Compressor := string -> result string.

(** The manager options that the modelled functions read. *)
Module Options.
Record t := {
  assetPrefix : string;
  hash : string;
  hashLength : Z;
  manifest : string;
  servePrefix : string;
  urlPrefix : string;
  tags : gmap string Formatter;
  compilers : list (string * Compiler.t);
  compressors : gmap string Compressor;
  compress : bool;
  wrapJavascript : bool;
  javascriptIIFE : string;
  separateBundles : bool
}.
End Options.

Module Pending.
Record t := {
  path : string;
  assets : list Member.t;
  dependencies : list Member.t;
  options : Opts.t
}.
End Pending.

Inductive event :=
| ErrorEvent (message : string)
| ChangeEvent (filename : string).

(** The manager.  [listening] tells whether an ['error'] listener is
    attached, [emitted] records the events delivered to listeners,
    [unlinked] the paths handed to [fs.unlink], and the waiting
    continuations of [compilingNow] are named by request numbers. *)
Record Manager := {
  dir : string;
  options : Options.t;
  assets : list (string * Asset.t);
  compiledAssets : gmap string (list string);
  pendingAssets : gmap string Pending.t;
  compilingNow : gmap string (list nat);
  reverseCompilerIndex : gmap string (list Compiler.t);
  listening : bool;
  emitted : list event;
  unlinked : list string
}.

Definition withEmitted (m : Manager) (e : list event) : Manager :=
  {| dir := dir m; options := options m; assets := assets m;
     compiledAssets := compiledAssets m; pendingAssets := pendingAssets m;
     compilingNow := compilingNow m; reverseCompilerIndex := reverseCompilerIndex m;
     listening := listening m; emitted := e; unlinked := unlinked m |}.

Definition withAssets (m : Manager) (a : list (string * Asset.t)) : Manager :=
  {| dir := dir m; options := options m; assets := a;
     compiledAssets := compiledAssets m; pendingAssets := pendingAssets m;
     compilingNow := compilingNow m; reverseCompilerIndex := reverseCompilerIndex m;
     listening := listening m; emitted := emitted m; unlinked := unlinked m |}.

Definition withCompilingNow (m : Manager) (c : gmap string (list nat)) : Manager :=
  {| dir := dir m; options := options m; assets := assets m;
     compiledAssets := compiledAssets m; pendingAssets := pendingAssets m;
     compilingNow := c; reverseCompilerIndex := reverseCompilerIndex m;
     listening := listening m; emitted := emitted m; unlinked := unlinked m |}.

(** The three writes that end [assetPath]: the pending entry, the
    compiled-asset registry and the files handed to [fs.unlink]. *)
Definition withResolution (m : Manager) (p : gmap string Pending.t)
    (c : gmap string (list string)) (u : list string) : Manager :=
  {| dir := dir m; options := options m; assets := assets m;
     compiledAssets := c; pendingAssets := p;
     compilingNow := compilingNow m; reverseCompilerIndex := reverseCompilerIndex m;
     listening := listening m; emitted := emitted m; unlinked := u |}.

(** ** Reading the maps of the manager

    [this.assets], [this.pendingAssets], [this.compiledAssets] and
    [this.compilingNow] are objects written [{}]: besides their own keys,
    the operator [in] and a property read see what [Object.prototype]
    gives to every object. *)

(** [this.assets[k]], [None] standing for [undefined]: the value is
    there exactly when [k in this.assets]. *)
Definition assetAt (m : Manager) (k : string) : option Member.t :=
  match Obj.lookup k (assets m) with
  | Some file => Some (Member.Indexed file)
  | None => if Js.inherited k then Some (Member.Inherited k) else None
  end.

(** The keys that [this.pendingAssets] inherits.  The assignment
    [this.pendingAssets['__proto__'] = entry] creates no key: it makes
    the entry the prototype of the map, which from then on inherits the
    properties [path], [assets], [dependencies] and [options] of the
    entry as well, and a read of [__proto__] gives the entry back.  The
    entry that the model keeps under [__proto__] stands for that
    prototype. *)
Definition pendingInherits (m : Manager) (k : string) : bool :=
  Js.inherited k
  || match pendingAssets m !! "__proto__" with
     | Some _ => existsb (String.eqb k) ["path"; "assets"; "dependencies"; "options"]
     | None => false
     end.

(** [k in this.pendingAssets] and, when it holds,
    [this.pendingAssets[k].options]: the options of an entry, and
    [undefined], here [Some None], for an inherited value. *)
Definition pendingOptions (m : Manager) (k : string) : option (option Opts.t) :=
  match pendingAssets m !! k with
  | Some existing => Some (Some (Pending.options existing))
  | None => if pendingInherits m k then Some None else None
  end.

(** [this.emit('error', new Error(message))]: an [EventEmitter] without
    an ['error'] listener throws the error instead. *)
Definition emitError (msg : string) (m : Manager) : outcome unit * Manager :=
  if listening m
  then (Return tt, withEmitted m (emitted m ++ [ErrorEvent msg]))
  else (Throw (Error msg), m).

(** [this.emit('error', new Error(message)); return '';] *)
Definition report (msg : string) (m : Manager) : outcome string * Manager :=
  match emitError msg m with
  | (Return _, m') => (Return "", m')
  | (Throw e, m') => (Throw e, m')
  end.

(** ** The helpers of [lib/utils.js] that the source file lacks *)

Module UtilsSpec.

(** Modelled from the spec: [utils.stripDuplicates] is not in
    [src/lib/utils.js]; "deduplicate while preserving first-occurrence
    order". *)
Fixpoint stripDuplicates (l : list string) : list string :=
  match l with
  | [] => []
  | x :: r => x :: List.filter (fun y => negb (String.eqb x y)) (stripDuplicates r)
  end.

(** Modelled from the spec: [utils.hashString] is not in
    [src/lib/utils.js]; "hash that joined string with the configured
    algorithm", as a hex digest. *)
Definition hashString (host : Host) (data algorithm : string) : string :=
  createHash host algorithm data.

Definition orElse {A} (a b : option A) : option A :=
  match a with
  | Some _ => a
  | None => b
  end.

(** Attribute by attribute, the new value wins and the stored ones that
    the new definition does not name are kept. *)
Definition mergeAttrs (new old : attrs) : attrs :=
  new ++ List.filter (fun kv => negb (Obj.has (fst kv) new)) old.

(** Modelled from the spec: [utils.mergeDefaults] and [utils.copy] are
    not in [src/lib/utils.js]; "merge the new options under the
    previously stored options (new values win)", the merge going into
    [attributes] as the test 'should only require the user to define an
    asset once' expects.  The embedding has no mutation, so [copy] is the
    identity. *)
Definition mergeDefaults (new old : Opts.t) : Opts.t :=
  {| Opts.include := orElse (Opts.include new) (Opts.include old);
     Opts.dependencies := orElse (Opts.dependencies new) (Opts.dependencies old);
     Opts.prefix := orElse (Opts.prefix new) (Opts.prefix old);
     Opts.attributes :=
       match Opts.attributes new, Opts.attributes old with
       | Some n, Some o => Some (mergeAttrs n o)
       | n, o => orElse n o
       end |}.

Definition copy (o : Opts.t) : Opts.t := o.

(** Modelled from the spec: [utils.mergeDefaults(utils.copy(options),
    existingOptions)] of lines 652, 697 and 738.  The stored options are
    [undefined] when the value found under the identifier is inherited;
    there is nothing to merge then, and the new options stay as they
    are. *)
Definition mergeStored (new : Opts.t) (existingOptions : option Opts.t) : Opts.t :=
  match existingOptions with
  | Some old => mergeDefaults (copy new) old
  | None => copy new
  end.

End UtilsSpec.

(** ** Naming compiled assets *)

(** [Manager.prototype.getCompiledAssetFilename] *)
Definition getCompiledAssetFilename (m : Manager) (filename hash : string) : string :=
  Options.assetPrefix (options m) +:+ "-" +:+ hash +:+ "-" +:+ filename.

(** [this.compiledPattern], as the constructor builds it.  [None]: the
    pattern source is outside the modelled pattern language. *)
Definition compiledPatternSource (assetPrefix : string) : string :=
  "^" +:+ Utils.escapeRegex assetPrefix +:+ "-" +:+ "[0-9a-f]+?" +:+ "-".

Definition compiledPattern (m : Manager) : option (list RegExp.atom) :=
  RegExp.compile (compiledPatternSource (Options.assetPrefix (options m))).

(** [Manager.prototype.isCompiledAsset] *)
Definition isCompiledAsset (m : Manager) (file : string) : option bool :=
  (fun re => RegExp.test re (Path.basename file)) <$> compiledPattern m.

(** [Manager.prototype.getCanonicalPath] *)
Definition getCanonicalPath (file : string) : string :=
  let dir := Path.dirname file in
  let filename := Path.basename file in
  let canonical := Js.join "-" (drop 2 (Js.split "-" filename)) in
  Path.join dir canonical.

(** ** The index: [Manager.prototype.indexAssets] *)

(** Lines 561-569 for one file of the walk.  [None]: the compiled
    pattern is outside the modelled pattern language, or the step leaves
    the model: the canonical name of a compiled file is a name that
    [this.compiledAssets] inherits, so that [push] is called on the
    inherited value and throws, or the file is called [__proto__], so
    that line 568 replaces the prototype of the asset map. *)
Definition indexOne (m : Manager) (file : Asset.t) : option Manager :=
  match isCompiledAsset m (Asset.name file) with
  | None => None
  | Some true =>
      let canonical := getCanonicalPath (Asset.name file) in
      match compiledAssets m !! canonical with
      | None =>
          if Js.inherited canonical then None
          else Some (withResolution m (pendingAssets m)
                       (<[canonical := [Asset.name file]]> (compiledAssets m))
                       (unlinked m))
      | Some listed =>
          Some (withResolution m (pendingAssets m)
                  (<[canonical := listed ++ [Asset.name file]]> (compiledAssets m))
                  (unlinked m))
      end
  | Some false =>
      if String.eqb (Asset.name file) (Options.manifest (options m)) then Some m
      else if String.eqb (Js.toLowerCase (Asset.name file)) "__proto__" then None
      else Some (withAssets m (Obj.set (Js.toLowerCase (Asset.name file)) file (assets m)))
  end.

(** [indexAssets], [walked] being what [getAssets] returned.  [None]:
    a step gave [None]. *)
Fixpoint indexAssets (walked : list Asset.t) (m : Manager) : option Manager :=
  match walked with
  | [] => Some m
  | file :: rest =>
      match indexOne m file with
      | Some m' => indexAssets rest m'
      | None => None
      end
  end.

(** ** Expanding glob patterns *)

(** [isGlob.test(s)] for [isGlob = /[*?{}]/] *)
Fixpoint isGlob (s : string) : bool :=
  match s with
  | EmptyString => false
  | String c r => Js.contains c "*?{}" || isGlob r
  end.

Definition globList (g : globs) : list string :=
  match g with
  | GOne pattern => [pattern]
  | GMany patterns => patterns
  end.

(** Truthiness of [options.include]: an array is truthy, a string is
    truthy unless empty. *)
Definition globsGiven (g : option globs) : bool :=
  match g with
  | None => false
  | Some (GOne pattern) => Js.truthy pattern
  | Some (GMany _) => true
  end.

Section Resolver.
Context (host : Host).

(** The loop of [expandGlobs], [filenames] being the array built so far. *)
Fixpoint expandLoop (known : list string) (globs filenames : list string)
  : outcome (list string) :=
  match globs with
  | [] => Return filenames
  | g :: rest =>
      if negb (isGlob g) then expandLoop known rest (filenames ++ [g])
      else
        match List.filter (fun filename => minimatch host filename g) known with
        | [] => Throw (Error ("No assets matched the pattern " +:+ Js.quoted g))
        | matched => expandLoop known rest (filenames ++ matched)
        end
  end.

(** [Manager.prototype.expandGlobs] *)
Definition expandGlobs (m : Manager) (g : globs) : outcome (list string) :=
  expandLoop (Obj.keys (assets m)) (globList g) [].

End Resolver.

(** ** Resolving an identifier: [Manager.prototype.assetPath] *)

Section Resolution.
Context (host : Host).

(** Lines 724-732: the identifier in lower case, moved to the output
    extension of the compiler registered for its extension, if any. *)
Definition normaliseIdentifier (m : Manager) (identifier : string) : string :=
  let identifier := Js.toLowerCase identifier in
  let extname := Path.extname identifier in
  match Obj.lookup extname (Options.compilers (options m)) with
  | Some compiler =>
      let dirname := if Js.contains "/" identifier then Path.dirname identifier else "" in
      Path.join dirname (Path.basenameExt identifier extname +:+ Compiler.output compiler)
  | None => identifier
  end.

(** Lines 784-796: the compilers indexed under the extension, in order;
    [inl]: the source file found, [inr]: the names tried in vain. *)
Fixpoint tryCompilers (m : Manager) (base filename : string)
    (compilers : list Compiler.t) (tried : list string)
  : (string * Member.t) + list string :=
  match compilers with
  | [] => inr tried
  | compiler :: rest =>
      let uncompiledFilename := base +:+ Compiler.extname compiler in
      if String.eqb uncompiledFilename filename then
        tryCompilers m base filename rest tried
      else
        match assetAt m uncompiledFilename with
        | Some asset => inl (uncompiledFilename, asset)
        | None => tryCompilers m base filename rest (tried ++ [uncompiledFilename])
        end
  end.

(** Lines 799-805: the message of a missing asset.  [tried] is [None]
    when no compiler is indexed under the extension. *)
Definition notFoundMessage (filename identifier : string) (bundle : bool)
    (tried : option (list string)) : string :=
  "Asset " +:+ Js.quoted filename +:+ " could not be found"
  +:+ (if bundle then " when building asset " +:+ Js.quoted identifier else "")
  +:+ match tried with
      | Some (t :: ts) =>
          " (tried " +:+ Js.quoted (Js.join (Js.dq +:+ ", " +:+ Js.dq) (t :: ts)) +:+ ")"
      | _ => ""
      end.

(** Lines 772-810, one turn of the loop: the asset that stands for an
    entry of the file list, or the message of the failure. *)
Definition locate (m : Manager) (identifier : string) (o : Opts.t) (entry : string)
  : result Member.t :=
  let filename := Js.toLowerCase entry in
  match assetAt m filename with
  | Some asset => Ok asset
  | None =>
      let extname := Path.extname filename in
      let dirname := if Js.contains "/" filename then Path.dirname filename else "" in
      let base := Path.join dirname (Path.basenameExt filename extname) in
      let bundle := globsGiven (Opts.include o) in
      match reverseCompilerIndex m !! extname with
      | Some compilers =>
          match tryCompilers m base filename compilers [] with
          | inl (_, asset) => Ok asset
          | inr tried => Err (notFoundMessage filename identifier bundle (Some tried))
          end
      | None => Err (notFoundMessage filename identifier bundle None)
      end
  end.

(** The loop of lines 771-811: it stops at the first entry that cannot
    be located. *)
Fixpoint locateAll (m : Manager) (identifier : string) (o : Opts.t)
    (filenames : list string) (found : list Member.t) : result (list Member.t) :=
  match filenames with
  | [] => Ok found
  | entry :: rest =>
      match locate m identifier o entry with
      | Ok asset => locateAll m identifier o rest (found ++ [asset])
      | Err msg => Err msg
      end
  end.

(** The loop of lines 820-827 over the dependency names: an inherited
    value is truthy and passes [if (!asset)]. *)
Fixpoint locateDependencies (m : Manager) (names : list string) (found : list Member.t)
  : outcome (list Member.t) :=
  match names with
  | [] => Return found
  | dependency :: rest =>
      match assetAt m dependency with
      | Some asset => locateDependencies m rest (found ++ [asset])
      | None => Throw (Error ("Failed to locate " +:+ Js.quoted dependency))
      end
  end.

(** Lines 815-833, the body of the [try]. *)
Definition findDependencies (m : Manager) (g : globs) : outcome (list Member.t) :=
  match expandGlobs host m g with
  | Return dependencyFilenames =>
      locateDependencies m (UtilsSpec.stripDuplicates dependencyFilenames) []
  | Throw e => Throw e
  end.

(** Lines 836-840: the hashes joined with a colon, hashed, and cut to the
    configured length. *)
Definition assetHashes (assets dependencies : list Member.t) : string :=
  Js.join ":" (map (fun asset => Value.joinString (Member.hash asset)) (assets ++ dependencies)).

Definition fingerprint (m : Manager) (assets dependencies : list Member.t) : string :=
  Js.slice (UtilsSpec.hashString host (assetHashes assets dependencies)
              (Options.hash (options m)))
           0 (Options.hashLength (options m)).

(** Lines 843-846. *)
Definition compiledFilename (m : Manager) (identifier hash : string) : string :=
  let canonical := Path.basename identifier in
  let assetDirname := if Js.contains "/" identifier then Path.dirname identifier else "" in
  Path.join assetDirname (getCompiledAssetFilename m canonical hash).

Definition outputPath (m : Manager) (identifier hash : string) : string :=
  Path.join (Options.servePrefix (options m)) (compiledFilename m identifier hash).

(** Lines 835-866: the hash, the pending entry, the cleanup of older
    versions, and the path.  When [this.compiledAssets] has no key for
    the identifier but inherits a value under it, [existing] is that
    value, which is truthy and has no [filter]: line 857 throws, the
    pending entry being written already. *)
Definition define (m : Manager) (identifier : string) (o : Opts.t)
    (found dependencies : list Member.t) : outcome string * Manager :=
  let hash := fingerprint m found dependencies in
  let assetFilename := compiledFilename m identifier hash in
  let assetPath := outputPath m identifier hash in
  let entry := {| Pending.path := assetPath; Pending.assets := found;
                  Pending.dependencies := dependencies; Pending.options := o |} in
  let pending := <[identifier := entry]> (pendingAssets m) in
  match compiledAssets m !! identifier with
  | Some existing =>
      let kept := List.filter (fun file => String.eqb file assetFilename) existing in
      let stale := List.filter (fun file => negb (String.eqb file assetFilename)) existing in
      (Return assetPath,
       withResolution m pending (<[identifier := kept]> (compiledAssets m))
         (unlinked m ++ map (Path.join (dir m)) stale))
  | None =>
      if Js.inherited identifier then
        (Throw (TypeError "existing.filter is not a function"),
         withResolution m pending (compiledAssets m) (unlinked m))
      else
        (Return assetPath, withResolution m pending (compiledAssets m) (unlinked m))
  end.

(** Lines 749-761: the file list, without duplicates. *)
Definition listFiles (m : Manager) (identifier : string) (o : Opts.t)
  : outcome (list string) :=
  let listed :=
    if globsGiven (Opts.include o) then
      match Opts.include o with
      | Some g => expandGlobs host m g
      | None => Return []
      end
    else Return [identifier] in
  match listed with
  | Return filenames => Return (UtilsSpec.stripDuplicates filenames)
  | Throw e => Throw e
  end.

(** Lines 815-827: the dependencies, none when the option is not given. *)
Definition dependenciesOf (m : Manager) (o : Opts.t) : outcome (list Member.t) :=
  if globsGiven (Opts.dependencies o) then
    match Opts.dependencies o with
    | Some g => findDependencies m g
    | None => Return []
    end
  else Return [].

(** Lines 742-866: [assetPath] after the identifier has been normalised
    and the pending entry looked up. *)
Definition resolve (m : Manager) (identifier : string) (o : Opts.t)
  : outcome string * Manager :=
  match listFiles m identifier o with
  | Throw e =>
      report (message e +:+ " when building asset " +:+ Js.quoted identifier) m
  | Return [] => report "No assets were defined" m
  | Return filenames =>
      match locateAll m identifier o filenames [] with
      | Err msg => report msg m
      | Ok found =>
          match dependenciesOf m o with
          | Return dependencies => define m identifier o found dependencies
          | Throw e =>
              report (message e +:+ " when finding dependencies for "
                      +:+ Js.quoted identifier) m
          end
      end
  end.

(** [assetPath(identifier, options, true)]: the identifier is normalised
    and nothing is looked up. *)
Definition assetPathForced (identifier : string) (o : Opts.t) (m : Manager)
  : outcome string * Manager :=
  resolve m (normaliseIdentifier m identifier) o.

(** [Manager.prototype.assetPath].  The one recursive call, on a pending
    identifier, passes [force = true]. *)
Definition assetPath (identifier : string) (o : Opts.t) (force : bool) (m : Manager)
  : outcome string * Manager :=
  if force then assetPathForced identifier o m
  else
    let identifier := normaliseIdentifier m identifier in
    match pendingOptions m identifier with
    | Some existingOptions =>
        assetPathForced identifier (UtilsSpec.mergeStored o existingOptions) m
    | None => resolve m identifier o
    end.

(** ** [Manager.prototype.assetUrl] *)

(** Line 704: [this.options.urlPrefix || options.prefix]. *)
Definition chosenPrefix (m : Manager) (o : Opts.t) : option string :=
  if Js.truthy (Options.urlPrefix (options m))
  then Some (Options.urlPrefix (options m))
  else Opts.prefix o.

(** Lines 705-711. *)
Definition applyPrefix (prefix : option string) (url : string) : string :=
  match prefix with
  | Some prefix =>
      if Js.truthy prefix then
        let prefix :=
          if Js.firstIs "/" url && Js.lastIs "/" prefix
          then Js.slice prefix 0 (-1) else prefix in
        prefix +:+ url
      else url
  | None => url
  end.

(** Lines 700-711, [identifier] being in lower case already. *)
Definition assetUrlForced (identifier : string) (o : Opts.t) (m : Manager)
  : outcome string * Manager :=
  match assetPath identifier o false m with
  | (Return url, m') =>
      if negb (Js.truthy url) then (Return "", m')
      else (Return (applyPrefix (chosenPrefix m' o) url), m')
  | (Throw e, m') => (Throw e, m')
  end.

Definition assetUrl (identifier : string) (o : Opts.t) (force : bool) (m : Manager)
  : outcome string * Manager :=
  let identifier := Js.toLowerCase identifier in
  if force then assetUrlForced identifier o m
  else
    match pendingOptions m identifier with
    | Some existingOptions =>
        assetUrlForced (Js.toLowerCase identifier) (UtilsSpec.mergeStored o existingOptions) m
    | None => assetUrlForced identifier o m
    end.

(** ** [Manager.prototype.asset] *)

(** Lines 673-680. *)
Definition tagFor (identifier : string) (o : Opts.t) (m : Manager)
  : outcome string * Manager :=
  match assetUrl identifier o false m with
  | (Return url, m') =>
      let extname := Path.extname url in
      match (Options.tags (options m') !! extname : option Formatter) with
      | None =>
          report ("Unable to create an HTML tag for type " +:+ Js.quoted extname) m'
      | Some formatter =>
          (Return (formatter url (default [] (Opts.attributes o))), m')
      end
  | (Throw e, m') => (Throw e, m')
  end.

Definition withoutInclude (o : Opts.t) : Opts.t :=
  {| Opts.include := None; Opts.dependencies := Opts.dependencies o;
     Opts.prefix := Opts.prefix o; Opts.attributes := Opts.attributes o |}.

(** [include.map(f)] for an [f] that threads the manager and may throw. *)
Fixpoint mapM (f : string -> Manager -> option (outcome string * Manager))
    (l : list string) (m : Manager) : option (outcome (list string) * Manager) :=
  match l with
  | [] => Some (Return [], m)
  | x :: rest =>
      match f x m with
      | Some (Return y, m') =>
          match mapM f rest m' with
          | Some (Return ys, m'') => Some (Return (y :: ys), m'')
          | other => other
          end
      | Some (Throw e, m') => Some (Throw e, m')
      | None => None
      end
  end.

(** [Manager.prototype.asset].  The function calls itself on a pending
    identifier and, with [separateBundles], on every file of a bundle;
    [fuel] bounds the depth of these calls, and [None] means that it ran
    out. *)
Fixpoint asset (fuel : nat) (identifier : string) (o : Opts.t) (force : bool) (m : Manager)
  : option (outcome string * Manager) :=
  match fuel with
  | O => None
  | S fuel =>
      match (if force then None else pendingOptions m identifier) with
      | Some existingOptions =>
          asset fuel identifier (UtilsSpec.mergeStored o existingOptions) true m
      | None =>
          if Options.separateBundles (options m) && globsGiven (Opts.include o) then
            match Opts.include o with
            | Some g =>
                match expandGlobs host m g with
                | Throw e =>
                    Some (report (message e +:+ " when building asset "
                                  +:+ Js.quoted identifier) m)
                | Return include =>
                    let o := withoutInclude (UtilsSpec.copy o) in
                    match mapM (fun identifier => asset fuel identifier o false) include m with
                    | Some (Return tags, m') => Some (Return (Js.join (String (ascii_of_nat 10) "") tags), m')
                    | Some (Throw e, m') => Some (Throw e, m')
                    | None => None
                    end
                end
            | None => Some (tagFor identifier o m)
            end
          else Some (tagFor identifier o m)
      end
  end.

End Resolution.

(** ** The constructor *)

Definition defaultOptions : Options.t := {|
  Options.assetPrefix := "asset";
  Options.hash := "md5";
  Options.hashLength := 32;
  Options.manifest := ".asset-manifest";
  Options.servePrefix := "/";
  Options.urlPrefix := "";
  Options.tags := ∅;
  Options.compilers := [];
  Options.compressors := ∅;
  Options.compress := false;
  Options.wrapJavascript := false;
  Options.javascriptIIFE := "!function(){%s}();";
  Options.separateBundles := false
|}.

(** [compiler.extname = extname] *)
Definition withExtname (extname : string) (c : Compiler.t) : Compiler.t :=
  {| Compiler.output := Compiler.output c; Compiler.compile := Compiler.compile c;
     Compiler.extname := extname |}.

(** Lines 397-404 for one compiler.  When the index has no key for the
    output extension but inherits a value under it, no list is made and
    line 403 calls [push] on the inherited value, which throws. *)
Definition indexCompiler (index : gmap string (list Compiler.t))
    (entry : string * Compiler.t) : outcome (gmap string (list Compiler.t)) :=
  let compiler := withExtname (fst entry) (snd entry) in
  match index !! Compiler.output compiler with
  | Some listed =>
      Return (<[Compiler.output compiler := listed ++ [compiler]]> index)
  | None =>
      if Js.inherited (Compiler.output compiler) then
        Throw (TypeError "this.reverseCompilerIndex[compiler.output].push is not a function")
      else Return (<[Compiler.output compiler := [compiler]]> index)
  end.

(** Lines 395-404: the compilers by output extension, in the order of
    [options.compilers]. *)
Fixpoint indexCompilers (compilers : list (string * Compiler.t))
    (index : gmap string (list Compiler.t)) : outcome (gmap string (list Compiler.t)) :=
  match compilers with
  | [] => Return index
  | entry :: rest =>
      match indexCompiler index entry with
      | Return index' => indexCompilers rest index'
      | Throw e => Throw e
      end
  end.

Definition withCompilers (o : Options.t) (c : list (string * Compiler.t)) : Options.t :=
  {| Options.assetPrefix := Options.assetPrefix o; Options.hash := Options.hash o;
     Options.hashLength := Options.hashLength o; Options.manifest := Options.manifest o;
     Options.servePrefix := Options.servePrefix o; Options.urlPrefix := Options.urlPrefix o;
     Options.tags := Options.tags o; Options.compilers := c;
     Options.compressors := Options.compressors o; Options.compress := Options.compress o;
     Options.wrapJavascript := Options.wrapJavascript o;
     Options.javascriptIIFE := Options.javascriptIIFE o;
     Options.separateBundles := Options.separateBundles o |}.

(** The manager with empty maps and a given compiler index (lines
    384-395). *)
Definition blank (dir : string) (o : Options.t) (index : gmap string (list Compiler.t))
  : Manager :=
  let compilers := map (fun entry => (fst entry, withExtname (fst entry) (snd entry)))
                       (Options.compilers o) in
  {| dir := dir; options := withCompilers o compilers; assets := [];
     compiledAssets := ∅; pendingAssets := ∅; compilingNow := ∅;
     reverseCompilerIndex := index;
     listening := false; emitted := []; unlinked := [] |}.

(** [new Manager(dir, options)], the options being merged with the
    defaults already. *)
Definition newManager (dir : string) (o : Options.t) : outcome Manager :=
  match indexCompilers (Options.compilers o) ∅ with
  | Return index => Return (blank dir o index)
  | Throw e => Throw e
  end.

(** [manager.on('error', listener)] for a listener that records. *)
Definition onError (m : Manager) : Manager :=
  {| dir := dir m; options := options m; assets := assets m;
     compiledAssets := compiledAssets m; pendingAssets := pendingAssets m;
     compilingNow := compilingNow m; reverseCompilerIndex := reverseCompilerIndex m;
     listening := true; emitted := emitted m; unlinked := unlinked m |}.

(** ** The static directory *)

(** The manifest file is modelled by what
    [JSON.parse(fs.readFileSync(manifestPath).toString())] makes of it:
    the expression throws when the file is absent or is not JSON text,
    and gives a value otherwise. *)
Inductive manifestFile :=
| Absent
| NotJson
| Parsed (content : json).

(** [files] maps a path to the text of the file there; [writable] tells
    whether writing into the directory succeeds. *)
Record Disk := {
  files : gmap string string;
  manifestAt : manifestFile;
  writable : bool
}.

Definition withFile (d : Disk) (path contents : string) : Disk :=
  {| files := <[path := contents]> (files d); manifestAt := manifestAt d;
     writable := writable d |}.

Definition withManifest (d : Disk) (content : json) : Disk :=
  {| files := files d; manifestAt := Parsed content; writable := writable d |}.

Definition enoent (path : string) : string := "ENOENT, open '" +:+ path +:+ "'".
Definition eacces (path : string) : string := "EACCES, open '" +:+ path +:+ "'".

(** [fs.readFile(path, { encoding: 'utf8' }, callback)] *)
Definition readFile (d : Disk) (path : string) : result string :=
  match files d !! path with
  | Some contents => Ok contents
  | None => Err (enoent path)
  end.

(** [fs.writeFile(path, contents, callback)] *)
Definition writeFile (d : Disk) (path contents : string) : result unit * Disk :=
  if writable d then (Ok tt, withFile d path contents) else (Err (eacces path), d).

(** ** The hash cache: [Manager.prototype.hashAssets] *)

Module Manifest.

(** A decimal numeral without sign or leading zero, as an array index. *)
Definition arrayIndex (key : string) : option nat :=
  match NilEmpty.uint_of_string key with
  | Some u =>
      if String.eqb (NilZero.string_of_uint u) key then Some (Nat.of_uint u) else None
  | None => None
  end.

(** [key in manifest], for a value whose [typeof] is ['object']. *)
Definition has (key : string) (manifest : json) : outcome bool :=
  match manifest with
  | JNull =>
      Throw (TypeError ("Cannot use 'in' operator to search for '" +:+ key +:+ "' in null"))
  | JObj fields => Return (Obj.has key fields)
  | JArr items =>
      Return (String.eqb key "length" ||
              match arrayIndex key with
              | Some i => (i <? length items)%nat
              | None => false
              end)
  | _ => Throw (TypeError ("Cannot use 'in' operator to search for '" +:+ key +:+ "'"))
  end.

(** [manifest[key]] *)
Definition get (key : string) (manifest : json) : value :=
  match manifest with
  | JObj fields => Obj.lookup key fields
  | JArr items =>
      if String.eqb key "length" then Some (JNum (Z.of_nat (length items)))
      else match arrayIndex key with
           | Some i => nth_error items i
           | None => None
           end
  | _ => None
  end.

(** [entry.name] for a property that strings and arrays do not have. *)
Definition property (name : string) (entry : value) : outcome value :=
  match entry with
  | None => Throw (TypeError ("Cannot read property '" +:+ name +:+ "' of undefined"))
  | Some JNull => Throw (TypeError ("Cannot read property '" +:+ name +:+ "' of null"))
  | Some (JObj fields) => Return (Obj.lookup name fields)
  | Some _ => Return None
  end.

(** [v === mtime] for a number [mtime] *)
Definition sameTime (v : value) (mtime : Z) : bool :=
  match v with
  | Some (JNum n) => (n =? mtime)%Z
  | _ => false
  end.

(** Lines 599-604: the manifest read from the disk. *)
Definition load (file : manifestFile) : json :=
  match file with
  | Parsed content =>
      if String.eqb (Value.typeof content) "object" then content else JObj []
  | Absent | NotJson => JObj []
  end.

(** [JSON.parse(JSON.stringify(this.assets))]: a hash that is
    [undefined] is left out. *)
Definition ofAsset (a : Asset.t) : json :=
  JObj ([("name", JStr (Asset.name a)); ("mtime", JNum (Asset.mtime a))]
        ++ match Asset.hash a with
           | Some h => [("hash", h)]
           | None => []
           end).

Definition ofAssets (assets : list (string * Asset.t)) : json :=
  JObj (map (fun entry => (fst entry, ofAsset (snd entry))) assets).

End Manifest.

Definition withHash (a : Asset.t) (h : value) : Asset.t :=
  {| Asset.name := Asset.name a; Asset.mtime := Asset.mtime a; Asset.hash := h |}.

Section HashCache.
Context (host : Host).

(** Modelled from the spec: [utils.hashFile] is not in
    [src/lib/utils.js]; "compute a fresh content hash using the
    configured algorithm".  It reads the file synchronously, so a file
    that cannot be read makes it throw. *)
Definition hashFile (d : Disk) (path algorithm : string) : outcome string :=
  match files d !! path with
  | Some contents => Return (createHash host algorithm contents)
  | None => Throw (Error (enoent path))
  end.

(** Lines 607-613, one turn of the loop: the hash of the file and
    whether it had to be computed. *)
Definition hashOne (m : Manager) (d : Disk) (manifest : json)
    (filename : string) (file : Asset.t) : outcome (value * bool) :=
  let fresh :=
    match hashFile d (Path.join (dir m) filename) (Options.hash (options m)) with
    | Return h => Return (Some (JStr h), true)
    | Throw e => Throw e
    end in
  match Manifest.has filename manifest with
  | Throw e => Throw e
  | Return false => fresh
  | Return true =>
      match Manifest.property "mtime" (Manifest.get filename manifest) with
      | Throw e => Throw e
      | Return stored =>
          if Manifest.sameTime stored (Asset.mtime file) then
            match Manifest.property "hash" (Manifest.get filename manifest) with
            | Return h => Return (h, false)
            | Throw e => Throw e
            end
          else fresh
      end
  end.

(** The loop of lines 606-614 over the asset map: [done] holds the
    entries already visited, [outdated] the flag. *)
Fixpoint hashLoop (m : Manager) (d : Disk) (manifest : json)
    (todo done : list (string * Asset.t)) (outdated : bool)
  : outcome bool * list (string * Asset.t) :=
  match todo with
  | [] => (Return outdated, done)
  | (filename, file) :: rest =>
      match hashOne m d manifest filename file with
      | Return (h, computed) =>
          hashLoop m d manifest rest (done ++ [(filename, withHash file h)])
                   (outdated || computed)
      | Throw e => (Throw e, done ++ todo)
      end
  end.

(** [Manager.prototype.writeManifest] *)
Definition writeManifest (m : Manager) (d : Disk) : outcome unit * Manager * Disk :=
  if writable d
  then (Return tt, m, withManifest d (Manifest.ofAssets (assets m)))
  else
    let '(r, m') := emitError ("Failed to write the assets manifest: Error: "
                              +:+ eacces (Path.join (dir m) (Options.manifest (options m)))) m in
    (r, m', d).

(** [Manager.prototype.hashAssets] *)
Definition hashAssets (m : Manager) (d : Disk) : outcome bool * Manager * Disk :=
  let manifest := Manifest.load (manifestAt d) in
  match hashLoop m d manifest (assets m) [] false with
  | (Return outdated, hashed) =>
      let m := withAssets m hashed in
      if outdated then
        match writeManifest m d with
        | (Return _, m', d') => (Return true, m', d')
        | (Throw e, m', d') => (Throw e, m', d')
        end
      else (Return false, m, d)
  | (Throw e, hashed) => (Throw e, withAssets m hashed, d)
  end.

End HashCache.

(** ** The pipeline: [Manager.prototype.compileAsset] *)

Section Pipeline.
Context (host : Host).

(** Lines 508-531, one turn of [async.eachSeries]: the text that the
    file contributes, or the error handed to [next].  For a member
    without a [name], [path.join(self.dir, asset.name)] throws and no
    callback is called. *)
Definition compileOne (m : Manager) (d : Disk) (asset : Member.t) : outcome (result string) :=
  match Member.name asset with
  | None => Throw (TypeError "Arguments to path.join must be strings")
  | Some name =>
      let assetPath := Path.join (dir m) name in
      let extname := Path.extname name in
      match readFile d assetPath with
      | Err msg =>
          Return (Err ("Failed to read file " +:+ Js.quoted name +:+ ": " +:+ msg))
      | Ok fileContents =>
          match Obj.lookup extname (Options.compilers (options m)) with
          | None => Return (Ok fileContents)
          | Some compiler =>
              match Compiler.compile compiler fileContents with
              | Err msg =>
                  Return (Err ("Failed to compile file " +:+ Js.quoted name
                               +:+ ": " +:+ msg))
              | Ok compiled => Return (Ok compiled)
              end
          end
      end
  end.

(** [async.eachSeries]: the files in order, stopping at the first error. *)
Fixpoint compileEach (m : Manager) (d : Disk) (assets : list Member.t)
    (contents : list string) : outcome (result (list string)) :=
  match assets with
  | [] => Return (Ok contents)
  | asset :: rest =>
      match compileOne m d asset with
      | Return (Ok text) => compileEach m d rest (contents ++ [text])
      | Return (Err msg) => Return (Err msg)
      | Throw e => Throw e
      end
  end.

(** Lines 532-551: the final callback of [async.eachSeries]. *)
Definition finishCompile (m : Manager) (d : Disk) (file : Pending.t)
    (contents : list string) : result unit * Disk :=
  let contents := Js.join "" contents in
  let outputPath := Path.join (dir m) (Pending.path file) in
  let extname := Path.extname outputPath in
  let contents :=
    if String.eqb extname ".js" && Options.wrapJavascript (options m)
    then format1 host (Options.javascriptIIFE (options m)) contents
    else contents in
  match (if Options.compress (options m)
         then Options.compressors (options m) !! extname else None) : option Compressor with
  | None => writeFile d outputPath contents
  | Some compressor =>
      match compressor contents with
      | Err msg =>
          (Err ("Failed to compress asset " +:+ Js.quoted (Pending.path file)
                +:+ ": " +:+ msg), d)
      | Ok compressed => writeFile d outputPath compressed
      end
  end.

(** [Manager.prototype.compileAsset]: what the callback receives, and
    the directory afterwards; [Throw]: an exception is thrown, at once or
    in a later turn of the event loop, and the callback is not called. *)
Definition compileAsset (m : Manager) (d : Disk) (file : Pending.t)
  : outcome (result unit) * Disk :=
  match compileEach m d (Pending.assets file) [] with
  | Throw e => (Throw e, d)
  | Return (Err msg) => (Return (Err msg), d)
  | Return (Ok contents) =>
      let '(r, d') := finishCompile m d file contents in (Return r, d')
  end.

End Pipeline.

(** ** Serving requests: the handlers that [Manager.prototype.init] mounts

    Requests are numbered.  [arrive] is the handler of lines 447-463 run
    for a new request; [finish] is the moment when [compileAsset] calls
    the [next] of the request that started it, which runs the handler of
    lines 469-478 or, with an error, the one of lines 481-492.  A request
    leaves the handlers through [next()], on to the static middleware, or
    through [next(err)]. *)

Record Request := { url : string; canonicalAssetName : option string }.

Inductive delivery :=
| Served
| Failed (message : string).

Record Server := {
  manager : Manager;
  disk : Disk;
  requests : gmap nat Request;
  (** the compilations that run: the request that started each, the
      canonical path and the pending entry handed to [compileAsset] *)
  compiling : list (nat * string * Pending.t);
  (** how each request left the handlers *)
  delivered : list (nat * delivery);
  (** the calls of [compileAsset] so far, by canonical path *)
  invoked : list string
}.

Definition startServer (m : Manager) (d : Disk) : Server :=
  {| manager := m; disk := d; requests := ∅; compiling := []; delivered := [];
     invoked := [] |}.

(** [!request._canonicalAssetName] is false: the property is set to a
    string that is not empty. *)
Definition named (r : Request) : bool :=
  match canonicalAssetName r with
  | Some canonical => Js.truthy canonical
  | None => false
  end.

Definition deliver (n : nat) (how : delivery) (s : Server) : Server :=
  {| manager := manager s; disk := disk s; requests := requests s;
     compiling := compiling s; delivered := delivered s ++ [(n, how)];
     invoked := invoked s |}.

Definition withRequest (n : nat) (r : Request) (s : Server) : Server :=
  {| manager := manager s; disk := disk s; requests := <[n := r]> (requests s);
     compiling := compiling s; delivered := delivered s; invoked := invoked s |}.

Definition withRegistry (c : gmap string (list nat)) (s : Server) : Server :=
  {| manager := withCompilingNow (manager s) c; disk := disk s; requests := requests s;
     compiling := compiling s; delivered := delivered s; invoked := invoked s |}.

Definition started (n : nat) (canonical : string) (file : Pending.t) (s : Server) : Server :=
  {| manager := manager s; disk := disk s; requests := requests s;
     compiling := compiling s ++ [(n, canonical, file)]; delivered := delivered s;
     invoked := invoked s ++ [canonical] |}.

(** Every asset of the entry has a name. *)
Definition allNamed (file : Pending.t) : bool :=
  forallb (fun asset => match Member.name asset with Some _ => true | None => false end)
          (Pending.assets file).

(** Lines 447-463.  [None]: the number is taken, the compiled pattern is
    outside the modelled pattern language, or the handler leaves the
    model by throwing: [this.pendingAssets] has no key for the canonical
    path but inherits a value under it, which is truthy and is not an
    entry; or the canonical path is a name that [this.compilingNow]
    inherits, so that [push] is called on the inherited value; or an
    asset of the entry has no name, on which [compileAsset] throws
    instead of calling back. *)
Definition arrive (n : nat) (url : string) (s : Server) : option Server :=
  match requests s !! n, isCompiledAsset (manager s) url with
  | Some _, _ | _, None => None
  | None, Some false =>
      Some (deliver n Served (withRequest n {| url := url; canonicalAssetName := None |} s))
  | None, Some true =>
      let canonical := Js.sliceFrom (getCanonicalPath url) 1 in
      match pendingAssets (manager s) !! canonical with
      | None =>
          if pendingInherits (manager s) canonical then None
          else
            Some (deliver n Served
                    (withRequest n {| url := url; canonicalAssetName := None |} s))
      | Some file =>
          match compilingNow (manager s) !! canonical with
          | None =>
              if Js.inherited canonical || negb (allNamed file) then None
              else
              Some (started n canonical file
                      (withRequest n {| url := url; canonicalAssetName := Some canonical |}
                         (withRegistry (<[canonical := []]> (compilingNow (manager s))) s)))
          | Some waiting =>
              Some (withRequest n {| url := url; canonicalAssetName := None |}
                      (withRegistry (<[canonical := waiting ++ [n]]> (compilingNow (manager s))) s))
          end
      end
  end.

Definition outcomeOf (err : option string) : delivery :=
  match err with
  | None => Served
  | Some msg => Failed msg
  end.

Fixpoint forEach (f : nat -> Server -> option Server) (l : list nat) (s : Server)
  : option Server :=
  match l with
  | [] => Some s
  | n :: rest =>
      match f n s with
      | Some s' => forEach f rest s'
      | None => None
      end
  end.

(** The handlers of lines 469-478 ([err = None]) and 481-492 for request
    [n], [resumed] being what the [next] of a waiting request does.
    [None]: [pendingRequests] is [undefined] and [forEach] throws. *)
Definition handlers (resumed : nat -> option string -> Server -> option Server)
    (n : nat) (err : option string) (s : Server) : option Server :=
  match requests s !! n with
  | None => None
  | Some request =>
      if negb (named request) then Some (deliver n (outcomeOf err) s)
      else
        match canonicalAssetName request with
        | None => None
        | Some canonical =>
            match compilingNow (manager s) !! canonical with
            | None => None
            | Some pendingRequests =>
                let s := withRegistry (delete canonical (compilingNow (manager s))) s in
                match forEach (fun w => resumed w err) pendingRequests s with
                | Some s' => Some (deliver n (outcomeOf err) s')
                | None => None
                end
            end
        end
  end.

(** The [next] of a waiting request runs the same handlers for that
    request; a waiting request that would release others in turn is not
    modelled. *)
Definition resumeWaiting : nat -> option string -> Server -> option Server :=
  handlers (fun _ _ _ => None).

Definition resumeStarter : nat -> option string -> Server -> option Server :=
  handlers resumeWaiting.

Definition withoutCompilation (n : nat) (s : Server) (d : Disk) : Server :=
  {| manager := manager s; disk := d; requests := requests s;
     compiling := List.filter (fun c => negb (Nat.eqb (fst (fst c)) n)) (compiling s);
     delivered := delivered s; invoked := invoked s |}.

Definition compilationOf (n : nat) (s : Server) : option (string * Pending.t) :=
  match List.filter (fun c => Nat.eqb (fst (fst c)) n) (compiling s) with
  | (_, canonical, file) :: _ => Some (canonical, file)
  | [] => None
  end.

Section Serving.
Context (host : Host).

(** The compilation started by request [n] calls back.  [None]: no such
    compilation runs, or [compileAsset] throws instead of calling back. *)
Definition finish (n : nat) (s : Server) : option Server :=
  match compilationOf n s with
  | None => None
  | Some (_, file) =>
      match compileAsset host (manager s) (disk s) file with
      | (Return (Ok _), d) => resumeStarter n None (withoutCompilation n s d)
      | (Return (Err msg), d) => resumeStarter n (Some msg) (withoutCompilation n s d)
      | (Throw _, _) => None
      end
  end.

Inductive action :=
| Arrive (n : nat) (url : string)
| Finish (n : nat).

Definition step (s : Server) (a : action) : option Server :=
  match a with
  | Arrive n url => arrive n url s
  | Finish n => finish n s
  end.

Fixpoint run (s : Server) (l : list action) : option Server :=
  match l with
  | [] => Some s
  | a :: rest =>
      match step s a with
      | Some s' => run s' rest
      | None => None
      end
  end.

End Serving.

(** ** Vocabulary of the statements *)

(** No character of [s] is in [set]. *)
Definition free (set s : string) : bool :=
  forallb (fun c => negb (Js.contains c set)) (Js.chars s).

(** A hash as [digest('hex')] prints it and cut to a positive length:
    hexadecimal digits in lower case, at least one. *)
Definition hexString (h : string) : bool :=
  Js.truthy h && forallb RegExp.isHex (Js.chars h).













(** What the map holds under a name: the file indexed under the key or,
    for a name that is not a key, what [Object.prototype] gives. *)
Definition heldUnder (m : Manager) (k : string) : option Member.t :=
  match Obj.lookup k (assets m) with
  | Some file => Some (Member.Indexed file)
  | None => if Js.inherited k then Some (Member.Inherited k) else None
  end.







(** An asset after a fresh hash: same key, same name and time, and the
    digest of the file's text as hash. *)
Definition rehashed (host : Host) (m : Manager) (d : Disk) (old new : string * Asset.t)
  : Prop :=
  fst new = fst old
  /\ Asset.name (snd new) = Asset.name (snd old)
  /\ Asset.mtime (snd new) = Asset.mtime (snd old)
  /\ exists content,
       files d !! Path.join (dir m) (fst old) = Some content
       /\ Asset.hash (snd new)
          = Some (JStr (createHash host (Options.hash (options m)) content)).

(** A compilation for the canonical path runs. *)
Definition runningFor (s : Server) (canonical : string) : Prop :=
  exists n file, In (n, canonical, file) (compiling s).

(** What the handlers keep true of the in-flight registry. *)
Record Serialized (s : Server) : Prop := {
  (** a key that is not the empty string is there only while a
      compilation for it runs *)
  registry_running : forall c,
    Js.truthy c = true -> is_Some (compilingNow (manager s) !! c) -> runningFor s c;
  (** while a compilation runs its key is there *)
  running_registry : forall n c file,
    In (n, c, file) (compiling s) -> is_Some (compilingNow (manager s) !! c);
  (** one compilation per canonical path, one per request *)
  one_per_path : List.NoDup (map (fun x => snd (fst x)) (compiling s));
  one_per_request : List.NoDup (map (fun x => fst (fst x)) (compiling s));
  (** the request that started a compilation carries its canonical path *)
  starters_named : forall n c file,
    In (n, c, file) (compiling s) ->
    exists r, requests s !! n = Some r /\ canonicalAssetName r = Some c;
  (** a queued request carries none *)
  waiters_unnamed : forall c queue w,
    compilingNow (manager s) !! c = Some queue -> In w queue ->
    exists r, requests s !! w = Some r /\ canonicalAssetName r = None;
  (** every asset of an entry that is being compiled has a name *)
  compiling_named : forall n c file,
    In (n, c, file) (compiling s) -> allNamed file = true
}.

(** What [finish] delivers: the queued requests in order, then the
    request that started the compilation, all with the same outcome. *)
Definition released (queue : list nat) (n : nat) (how : delivery) : list (nat * delivery) :=
  map (fun w => (w, how)) queue ++ [(n, how)].

(** How a request leaves after the compilation called back. *)
Definition howOf (r : result unit) : delivery :=
  match r with
  | Ok _ => Served
  | Err msg => Failed msg
  end.

(** ** Managers and directories used for evaluation *)

Module Fixture.

Definition newline : string := String (ascii_of_nat 10) EmptyString.

Definition optionsWith (assetPrefix : string) (hashLength : Z) (urlPrefix : string)
    (tags : gmap string Formatter) (compilers : list (string * Compiler.t))
    (separateBundles : bool) : Options.t :=
  {| Options.assetPrefix := assetPrefix; Options.hash := "md5";
     Options.hashLength := hashLength; Options.manifest := ".asset-manifest";
     Options.servePrefix := "/"; Options.urlPrefix := urlPrefix;
     Options.tags := tags; Options.compilers := compilers;
     Options.compressors := ∅; Options.compress := false;
     Options.wrapJavascript := false; Options.javascriptIIFE := "!function(){%s}();";
     Options.separateBundles := separateBundles |}.

(** Formatters in the manner of the tests of [test/tags.js]. *)
Definition scriptTag : Formatter := fun url _ =>
  "<script src=" +:+ Js.quoted url +:+ " type=" +:+ Js.quoted "text/javascript"
  +:+ "></script>".

Definition imgTag : Formatter := fun url _ =>
  "<img src=" +:+ Js.quoted url +:+ " />".

Definition tags : gmap string Formatter :=
  {[ ".js" := scriptTag; ".png" := imgTag ]}.

(** A static directory like [test/fixtures/simple-assets]. *)
Definition root : string := "/fixtures/simple-assets".

Definition disk : Disk := {|
  files := {[ "/fixtures/simple-assets/jquery.js" := "window.jQuery = {};" +:+ newline;
              "/fixtures/simple-assets/image.png" := "";
              "/fixtures/simple-assets/robots.txt" := "";
              "/fixtures/simple-assets/foo.less" := "a { b: c }" ]};
  manifestAt := Absent;
  writable := true
|}.

Definition walked : list Asset.t :=
  map (fun name => {| Asset.name := name; Asset.mtime := 1400000000000; Asset.hash := None |})
      [ "foo.less"; "image.png"; "jquery.js"; "robots.txt" ].

(** [new Manager(root, o)] *)
Definition created (o : Options.t) : Manager :=
  match newManager root o with
  | Return m => m
  | Throw _ => blank root o ∅
  end.

(** The [setup] of the tests, with a listener for ['error']:
    [new Manager], [indexAssets], [hashAssets]. *)
Definition setup (o : Options.t) : Manager :=
  let m := default (created o) (indexAssets walked (created o)) in
  onError (snd (fst (hashAssets Node.host m disk))).

Definition plain : Manager := setup defaultOptions.

(** [hashLength: 6] *)
Definition short : Manager := setup (optionsWith "asset" 6 "" tags [] false).

(** [hashLength: 6] and a global [urlPrefix] *)
Definition cdn : Manager := setup (optionsWith "asset" 6 "http://cdn.foo.com/" tags [] false).


(** A manager whose compiled files are meant to go to a directory of
    their own. *)
Definition subdirectory : Manager := setup (optionsWith "compiled/asset" 32 "" tags [] false).

Definition lessCompiler : Compiler.t :=
  {| Compiler.output := ".css"; Compiler.compile := fun source => Ok source;
     Compiler.extname := ".less" |}.

Definition cssCompiler : Compiler.t :=
  {| Compiler.output := ".txt"; Compiler.compile := fun source => Ok source;
     Compiler.extname := ".css" |}.


(** Two compilers in a chain: [.less] to [.css] and [.css] to [.txt] *)
Definition chained : Manager :=
  setup (optionsWith "asset" 32 "" tags [(".less", lessCompiler); (".css", cssCompiler)] false).

Definition defined (include : list string) : Opts.t :=
  {| Opts.include := Some (GMany include); Opts.dependencies := None;
     Opts.prefix := None; Opts.attributes := None |}.

Definition prefixed (prefix : string) : Opts.t :=
  {| Opts.include := None; Opts.dependencies := None;
     Opts.prefix := Some prefix; Opts.attributes := None |}.

End Fixture.

(** A manager as [indexAssets] leaves it: no asset has a hash yet. *)
Definition unhashed (m : Manager) : Manager :=
  withAssets m (map (fun entry => (fst entry, withHash (snd entry) None)) (assets m)).

(** The serving examples.  The manager has [jquery.js] defined, and a
    bundle whose identifier is the empty string. *)
Definition jqueryAsset : Asset.t :=
  {| Asset.name := "jquery.js"; Asset.mtime := 1400000000000;
     Asset.hash := Some (JStr "9e973e7c932c7f421beab8c3ef2d4c06") |}.

Definition jqueryUrl : string := "/asset-82470a0982f62504a81cf60128ff61a2-jquery.js".
Definition emptyUrl : string := "/asset-82470a0982f62504a81cf60128ff61a2-".

Definition jqueryEntry : Pending.t :=
  {| Pending.path := jqueryUrl; Pending.assets := [Member.Indexed jqueryAsset];
     Pending.dependencies := []; Pending.options := Opts.empty |}.

Definition emptyEntry : Pending.t :=
  {| Pending.path := emptyUrl; Pending.assets := [Member.Indexed jqueryAsset];
     Pending.dependencies := []; Pending.options := Fixture.defined ["jquery.js"] |}.

Definition servingManager : Manager :=
  {| dir := Fixture.root; options := defaultOptions;
     assets := [("jquery.js", jqueryAsset)];
     compiledAssets := ∅;
     pendingAssets := {[ "jquery.js" := jqueryEntry; "" := emptyEntry ]};
     compilingNow := ∅; reverseCompilerIndex := ∅;
     listening := true; emitted := []; unlinked := [] |}.

Definition after (actions : list action) : Server :=
  default (startServer servingManager Fixture.disk)
          (run Node.host (startServer servingManager Fixture.disk) actions).

Definition twoArrived : Server := after [Arrive 1 jqueryUrl; Arrive 2 jqueryUrl].
Definition threeArrived : Server :=
  after [Arrive 1 jqueryUrl; Arrive 2 jqueryUrl; Arrive 3 jqueryUrl].
Definition emptyArrived : Server := after [Arrive 1 emptyUrl].
(* ===================================================================== *)
(** * Part II: facts about the embedding *)
(* ===================================================================== *)

#[global] Arguments Ascii.eqb : simpl never.
#[global] Arguments String.eqb : simpl never.

(** ** Strings *)

Module JsFacts.

Lemma str_chars (s : string) : Js.str (Js.chars s) = s.
Proof. apply string_of_list_ascii_of_string. Qed.

Lemma chars_str (l : list ascii) : Js.chars (Js.str l) = l.
Proof. apply list_ascii_of_string_of_list_ascii. Qed.

Lemma app_nil (s : string) : "" +:+ s = s.
Proof. reflexivity. Qed.

Lemma app_cons (c : ascii) (s t : string) : String c s +:+ t = String c (s +:+ t).
Proof. reflexivity. Qed.

Lemma chars_app (a b : string) : Js.chars (a +:+ b) = Js.chars a ++ Js.chars b.
Proof.
  induction a as [|c a IH]; [reflexivity |].
  rewrite app_cons. simpl. now rewrite <- IH.
Qed.

Lemma app_empty_r (s : string) : s +:+ "" = s.
Proof. induction s as [|c s IH]; [reflexivity | now rewrite app_cons, IH]. Qed.

Lemma app_assoc (a b c : string) : (a +:+ b) +:+ c = a +:+ (b +:+ c).
Proof. induction a as [|x a IH]; [reflexivity | now rewrite !app_cons, IH]. Qed.

Lemma length_app (a b : string) :
  String.length (a +:+ b) = (String.length a + String.length b)%nat.
Proof.
  induction a as [|x a IH]; [reflexivity |].
  rewrite app_cons. simpl. now rewrite IH.
Qed.

Lemma contains_app (c : ascii) (a b : string) :
  Js.contains c (a +:+ b) = Js.contains c a || Js.contains c b.
Proof.
  induction a as [|x a IH]; [reflexivity |].
  rewrite app_cons. simpl. rewrite IH. now rewrite orb_assoc.
Qed.

Lemma split_nonempty (sep : ascii) (s : string) : Js.split sep s <> [].
Proof.
  induction s as [|c s IH]; simpl; [discriminate |].
  destruct (Ascii.eqb c sep); [discriminate |].
  destruct (Js.split sep s); discriminate.
Qed.

(** A string without the separator is one segment. *)
Lemma split_none (sep : ascii) (s : string) :
  Js.contains sep s = false -> Js.split sep s = [s].
Proof.
  induction s as [|c s IH]; simpl; [reflexivity |].
  rewrite (Ascii.eqb_sym sep c).
  destruct (Ascii.eqb c sep); simpl; [discriminate |].
  intros H. now rewrite (IH H).
Qed.

(** Splitting distributes over a separator in the middle. *)
Lemma split_app (sep : ascii) (a b : string) :
  Js.split sep (a +:+ String sep b) = Js.split sep a ++ Js.split sep b.
Proof.
  induction a as [|c a IH]; [rewrite app_nil; simpl; now rewrite Ascii.eqb_refl |].
  rewrite app_cons. simpl.
  - destruct (Ascii.eqb c sep); [now rewrite IH |].
    rewrite IH.
    destruct (Js.split sep a) as [|h t] eqn:E; [now apply split_nonempty in E |].
    reflexivity.
Qed.

Lemma join_cons (sep x : string) (l : list string) :
  l <> [] -> Js.join sep (x :: l) = x +:+ sep +:+ Js.join sep l.
Proof. destruct l; [congruence | reflexivity]. Qed.

(** [s.split(sep).join(sep)] gives [s] back. *)
Lemma join_split (sep : ascii) (s : string) :
  Js.join (String sep "") (Js.split sep s) = s.
Proof.
  induction s as [|c s IH]; [reflexivity |].
  simpl Js.split.
  destruct (Ascii.eqb_spec c sep) as [->|Hne].
  - rewrite join_cons by apply split_nonempty. now rewrite IH.
  - destruct (Js.split sep s) as [|h t] eqn:E; [now apply split_nonempty in E |].
    destruct t as [|h' t'].
    + simpl in *. now rewrite IH.
    + change (Js.join (String sep "") (String c h :: h' :: t'))
        with (String c (h +:+ String sep "" +:+ Js.join (String sep "") (h' :: t'))).
      f_equal. exact IH.
Qed.

Lemma join_app (sep : string) (l1 l2 : list string) :
  l1 <> [] -> l2 <> [] ->
  Js.join sep (l1 ++ l2) = Js.join sep l1 +:+ sep +:+ Js.join sep l2.
Proof.
  intros H1 H2. induction l1 as [|x l1 IH]; [congruence |].
  destruct l1 as [|y l1].
  - simpl app. now rewrite join_cons.
  - change ((x :: y :: l1) ++ l2) with (x :: ((y :: l1) ++ l2)).
    rewrite join_cons by discriminate.
    rewrite IH by discriminate.
    rewrite (join_cons sep x (y :: l1)) by discriminate.
    now rewrite !app_assoc.
Qed.

Lemma forallb_rev {A} (p : A -> bool) (l : list A) :
  forallb p l = true -> forallb p (rev l) = true.
Proof.
  intros H. apply forallb_forall. intros x Hx.
  apply in_rev in Hx. eapply forallb_forall in H; eauto.
Qed.

Lemma takeWhile_all {A} (p : A -> bool) (l : list A) :
  forallb p l = true -> Js.takeWhile p l = l.
Proof.
  induction l as [|x l IH]; simpl; [reflexivity |].
  intros H. apply andb_true_iff in H as [Hx Hl]. rewrite Hx. now rewrite IH.
Qed.

Lemma dropWhile_all {A} (p : A -> bool) (l : list A) :
  forallb p l = true -> Js.dropWhile p l = [].
Proof.
  induction l as [|x l IH]; simpl; [reflexivity |].
  intros H. apply andb_true_iff in H as [Hx Hl]. rewrite Hx. now apply IH.
Qed.

Lemma dropWhile_none {A} (p : A -> bool) (l : list A) :
  forallb (fun x => negb (p x)) l = true -> Js.dropWhile p l = l.
Proof.
  destruct l as [|x l]; simpl; [reflexivity |].
  intros H. apply andb_true_iff in H as [Hx _].
  apply negb_true_iff in Hx. now rewrite Hx.
Qed.

Lemma truthy_iff (s : string) : Js.truthy s = true <-> s <> "".
Proof. destruct s; simpl; split; congruence. Qed.

Lemma lastIs_none (c : ascii) (s : string) :
  Js.contains c s = false -> Js.lastIs c s = false.
Proof.
  induction s as [|d s IH]; simpl; [reflexivity |].
  intros H. apply orb_false_iff in H as [Hd Hs].
  destruct s; [exact Hd | now apply IH].
Qed.

Lemma firstIs_none (c : ascii) (s : string) :
  Js.contains c s = false -> Js.firstIs c s = false.
Proof.
  destruct s as [|d s]; simpl; [reflexivity |].
  intros H. now apply orb_false_iff in H as [Hd _].
Qed.

End JsFacts.

(** ** Paths without a slash *)

Module PathFacts.

Lemma notSlash_chars (s : string) :
  Js.contains "/" s = false -> forallb Path.notSlash (Js.chars s) = true.
Proof.
  induction s as [|c s IH]; simpl; [reflexivity |].
  intros H. apply orb_false_iff in H as [Hc Hs].
  unfold Path.notSlash at 1, Path.isSlash. rewrite Ascii.eqb_sym, Hc. simpl.
  now apply IH.
Qed.

Lemma basename_plain (s : string) :
  Js.contains "/" s = false -> Path.basename s = s.
Proof.
  intros H. unfold Path.basename.
  pose proof (JsFacts.forallb_rev _ _ (notSlash_chars s H)) as Hr.
  rewrite (JsFacts.dropWhile_none Path.isSlash) by exact Hr.
  rewrite JsFacts.takeWhile_all by exact Hr.
  rewrite rev_involutive. apply JsFacts.str_chars.
Qed.

Lemma dirname_plain (s : string) :
  Js.contains "/" s = false -> Path.dirname s = ".".
Proof.
  destruct s as [|c s]; [reflexivity |].
  simpl. intros H. apply orb_false_iff in H as [Hc Hs].
  unfold Path.dirname.
  pose proof (JsFacts.forallb_rev _ _ (notSlash_chars s Hs)) as Hr.
  rewrite (JsFacts.dropWhile_none Path.isSlash) by exact Hr.
  rewrite JsFacts.dropWhile_all by exact Hr.
  unfold Path.isSlash. now rewrite Ascii.eqb_sym, Hc.
Qed.

(** Joining the directory of a plain name with a plain name gives the
    name, unless it is empty. *)
Lemma join_dot_plain (c : string) :
  Js.contains "/" c = false -> c <> "" -> Path.join "." c = c.
Proof.
  intros Hc Hne. unfold Path.join. simpl List.filter.
  apply JsFacts.truthy_iff in Hne as Ht. rewrite Ht.
  change (Js.join "/" ["."; c]) with ("." +:+ String "/" c).
  unfold Path.normalize.
  change ("." +:+ String "/" c) with (String "." (String "/" c)) at 1.
  cbv iota.
  rewrite (JsFacts.split_app "/" "." c), (JsFacts.split_none "/" c Hc).
  assert (Hl : Js.lastIs "/" ("." +:+ String "/" c) = false).
  { simpl. destruct c as [|d c]; [easy |].
    apply (JsFacts.lastIs_none "/" (String d c) Hc). }
  rewrite Hl. simpl Js.firstIs. simpl negb.
  unfold Path.normalizeSegments. simpl fold_left.
  unfold Path.pushSegment at 2. simpl.
  unfold Path.pushSegment.
  destruct (String.eqb_spec c "") as [->|_]; [easy |].
  destruct (String.eqb_spec c ".") as [->|_]; [reflexivity |].
  destruct (String.eqb_spec c "..") as [->|_]; [reflexivity |].
  simpl. destruct c; [easy | reflexivity].
Qed.

End PathFacts.

(** ** The compiled-asset pattern *)

Module RegExpFacts.

Lemma parse_S (n : nat) (src : string) :
  RegExp.parse (S n) src =
  match src with
  | EmptyString => Some []
  | String c rest =>
      if Ascii.eqb c "^" then cons RegExp.Bol <$> RegExp.parse n rest
      else if Ascii.eqb c "$" then cons RegExp.Eol <$> RegExp.parse n rest
      else if Ascii.eqb c "\" then
        match rest with
        | String d rest' =>
            if RegExp.isAlnum d then None
            else cons (RegExp.Lit d) <$> RegExp.parse n rest'
        | EmptyString => None
        end
      else if Ascii.eqb c "[" then
        match RegExp.stripPrefix RegExp.hexClass src with
        | Some rest' => cons RegExp.HexPlus <$> RegExp.parse n rest'
        | None => None
        end
      else if RegExp.isSyntaxChar c then None
      else cons (RegExp.Lit c) <$> RegExp.parse n rest
  end.
Proof. reflexivity. Qed.

Lemma parse_more (n : nat) : forall (src : string) (atoms : list RegExp.atom),
  RegExp.parse n src = Some atoms -> RegExp.parse (S n) src = Some atoms.
Proof.
  induction n as [|n IH]; intros src atoms H; [discriminate |].
  rewrite parse_S in H. rewrite parse_S.
  destruct src as [|c rest]; [easy |].
  destruct (Ascii.eqb c "^").
  { destruct (RegExp.parse n rest) eqn:E; [|discriminate].
    rewrite (IH _ _ E). easy. }
  destruct (Ascii.eqb c "$").
  { destruct (RegExp.parse n rest) eqn:E; [|discriminate].
    rewrite (IH _ _ E). easy. }
  destruct (Ascii.eqb c "\").
  { destruct rest as [|d rest']; [easy |].
    destruct (RegExp.isAlnum d); [easy |].
    destruct (RegExp.parse n rest') eqn:E; [|discriminate].
    rewrite (IH _ _ E). easy. }
  destruct (Ascii.eqb c "[").
  { destruct (RegExp.stripPrefix RegExp.hexClass (String c rest)); [|easy].
    destruct (RegExp.parse n s) eqn:E; [|discriminate].
    rewrite (IH _ _ E). easy. }
  destruct (RegExp.isSyntaxChar c); [easy |].
  destruct (RegExp.parse n rest) eqn:E; [|discriminate].
  rewrite (IH _ _ E). easy.
Qed.

Lemma parse_mono (n k : nat) (src : string) (atoms : list RegExp.atom) :
  RegExp.parse n src = Some atoms -> RegExp.parse (k + n) src = Some atoms.
Proof. induction k; [easy |]. intros H. apply parse_more. auto. Qed.

(** A character that [escapeRegex] escapes is not a letter or digit. *)
Lemma syntax_not_alnum (c : ascii) :
  RegExp.isSyntaxChar c = true -> RegExp.isAlnum c = false.
Proof.
  unfold RegExp.isSyntaxChar. simpl.
  repeat match goal with
         | |- context [Ascii.eqb c ?d] =>
             destruct (Ascii.eqb_spec c d) as [->|_]; [intros _; reflexivity |]
         end.
  discriminate.
Qed.

Lemma syntax_not_anchor (c : ascii) :
  RegExp.isSyntaxChar c = false -> Ascii.eqb c "[" = false.
Proof.
  destruct (Ascii.eqb_spec c "[") as [->|]; [discriminate | reflexivity].
Qed.

(** The escaped prefix reads as its characters, one literal each. *)
Lemma parse_escaped (p : string) : forall (n : nat) (rest : string) (atoms : list RegExp.atom),
  free "^$\" p = true ->
  RegExp.parse n rest = Some atoms ->
  RegExp.parse (String.length p + n) (Utils.escapeRegex p +:+ rest)
  = Some (map RegExp.Lit (Js.chars p) ++ atoms).
Proof.
  induction p as [|c p IH]; intros n rest atoms Hp Hrest; [exact Hrest |].
  unfold free in Hp. simpl in Hp. apply andb_true_iff in Hp as [Hc Hp].
  apply negb_true_iff in Hc. simpl in Hc.
  apply orb_false_iff in Hc as [H1 Hc].
  apply orb_false_iff in Hc as [H2 Hc].
  apply orb_false_iff in Hc as [H3 _].
  specialize (IH n rest atoms Hp Hrest).
  simpl Utils.escapeRegex. simpl String.length. simpl Js.chars.
  destruct (RegExp.isSyntaxChar c) eqn:Hs.
  - rewrite !JsFacts.app_cons. cbn [plus]. rewrite parse_S.
    assert (Ascii.eqb "\" "^" = false) as -> by reflexivity.
    assert (Ascii.eqb "\" "$" = false) as -> by reflexivity.
    assert (Ascii.eqb "\" "\" = true) as -> by reflexivity.
    rewrite (syntax_not_alnum c Hs). rewrite IH. reflexivity.
  - rewrite !JsFacts.app_cons. cbn [plus]. rewrite parse_S.
    rewrite H1, H2, H3, (syntax_not_anchor c Hs), Hs, IH. reflexivity.
Qed.

(** The pattern that the constructor compiles for a prefix without
    [^], [$] and backslash. *)
Lemma compiledPattern_plain (p : string) :
  free "^$\" p = true ->
  RegExp.compile (compiledPatternSource p)
  = Some (RegExp.Bol :: map RegExp.Lit (Js.chars p)
            ++ [RegExp.Lit "-"; RegExp.HexPlus; RegExp.Lit "-"]).
Proof.
  intros Hp. unfold RegExp.compile, compiledPatternSource.
  assert (Htail : RegExp.parse 4 ("-" +:+ "[0-9a-f]+?" +:+ "-")
                  = Some [RegExp.Lit "-"; RegExp.HexPlus; RegExp.Lit "-"])
    by reflexivity.
  pose proof (parse_escaped p 4 _ _ Hp Htail) as H.
  set (src := "^" +:+ Utils.escapeRegex p +:+ "-" +:+ "[0-9a-f]+?" +:+ "-").
  assert (Hlen : (String.length p + 4 < String.length src)%nat).
  { unfold src. rewrite !JsFacts.length_app. simpl String.length.
    assert (String.length p <= String.length (Utils.escapeRegex p))%nat; [|lia].
    clear. induction p as [|c p IH]; simpl; [lia |].
    destruct (RegExp.isSyntaxChar c); simpl; lia. }
  replace (S (String.length src))
    with ((String.length src - (String.length p + 4)) + S (String.length p + 4))%nat by lia.
  apply parse_mono.
  unfold src. rewrite JsFacts.app_cons, JsFacts.app_nil.
  rewrite parse_S.
  assert (Ascii.eqb "^" "^" = true) as -> by reflexivity.
  rewrite H. reflexivity.
Qed.

Lemma search_here (atoms : list RegExp.atom) (s : string) (b : bool) :
  RegExp.matchHere atoms s b = true -> RegExp.search atoms s b = true.
Proof. intros H. destruct s; simpl; now rewrite H. Qed.

Lemma matchHere_literals (p : string) : forall (c : ascii) (atoms : list RegExp.atom)
    (s : string) (b : bool),
  RegExp.matchHere (map RegExp.Lit (Js.chars p) ++ RegExp.Lit c :: atoms)
                   (p +:+ String c s) b
  = RegExp.matchHere atoms s false.
Proof.
  induction p as [|d p IH]; intros c atoms s b.
  - rewrite JsFacts.app_nil. simpl. now rewrite Ascii.eqb_refl.
  - rewrite JsFacts.app_cons. simpl. rewrite Ascii.eqb_refl. simpl. apply IH.
Qed.

Lemma matchHere_hex (h : string) : forall (c : ascii) (s : string) (b : bool),
  hexString h = true ->
  RegExp.matchHere [RegExp.HexPlus; RegExp.Lit c] (h +:+ String c s) b = true.
Proof.
  induction h as [|d h IH]; intros c s b Hh; [discriminate |].
  unfold hexString in Hh. simpl in Hh. apply andb_true_iff in Hh as [Hd Hh].
  rewrite JsFacts.app_cons. cbn [RegExp.matchHere]. rewrite Hd. simpl.
  destruct h as [|e h].
  - rewrite JsFacts.app_nil. now rewrite Ascii.eqb_refl.
  - apply orb_true_iff. right.
    apply (IH c s false). unfold hexString. exact Hh.
Qed.

End RegExpFacts.

(** ** Compiled file names *)

Module NamingFacts.

Lemma free_contains (set s : string) (c : ascii) :
  free set s = true -> Js.contains c set = true -> Js.contains c s = false.
Proof.
  unfold free. induction s as [|d s IH]; intros Hs Hc; [reflexivity |].
  simpl in Hs. apply andb_true_iff in Hs as [Hd Hs].
  simpl. rewrite (IH Hs Hc), orb_false_r.
  destruct (Ascii.eqb_spec c d) as [->|]; [|reflexivity].
  now rewrite Hc in Hd.
Qed.

Lemma free_weaken (set set' s : string) :
  (forall c, Js.contains c set' = true -> Js.contains c set = true) ->
  free set s = true -> free set' s = true.
Proof.
  intros Hsub. unfold free. induction s as [|d s IH]; [reflexivity |].
  simpl. intros H. apply andb_true_iff in H as [Hd Hs].
  rewrite (IH Hs), andb_true_r.
  destruct (Js.contains d set') eqn:E; [|reflexivity].
  now rewrite (Hsub d E) in Hd.
Qed.

Lemma hex_not (c : ascii) (h : string) :
  RegExp.isHex c = false -> hexString h = true -> Js.contains c h = false.
Proof.
  intros Hc. unfold hexString. intros H. apply andb_true_iff in H as [_ H].
  induction h as [|d h IH]; [reflexivity |].
  simpl in H. apply andb_true_iff in H as [Hd Hh].
  simpl. rewrite (IH Hh), orb_false_r.
  destruct (Ascii.eqb_spec c d) as [->|]; [congruence | reflexivity].
Qed.

Lemma split_two (sep : ascii) (s : string) :
  Js.contains sep s = true ->
  exists a b rest, Js.split sep s = a :: b :: rest.
Proof.
  induction s as [|c s IH]; [discriminate |].
  simpl. rewrite (Ascii.eqb_sym sep c).
  destruct (Ascii.eqb c sep); simpl.
  - intros _. destruct (Js.split sep s) as [|h t] eqn:E.
    + now apply JsFacts.split_nonempty in E.
    + now exists "", h, t.
  - intros H. destruct (IH H) as (a & b & rest & ->).
    now exists (String c a), b, rest.
Qed.

Lemma filename_split (p h f : string) :
  Js.split "-" (p +:+ "-" +:+ h +:+ "-" +:+ f)
  = Js.split "-" p ++ Js.split "-" h ++ Js.split "-" f.
Proof.
  change (p +:+ "-" +:+ h +:+ "-" +:+ f) with (p +:+ String "-" (h +:+ String "-" f)).
  now rewrite !JsFacts.split_app.
Qed.

Lemma filename_plain (p h f : string) :
  Js.contains "/" p = false -> Js.contains "/" h = false -> Js.contains "/" f = false ->
  Js.contains "/" (p +:+ "-" +:+ h +:+ "-" +:+ f) = false.
Proof.
  intros Hp Hh Hf. rewrite !JsFacts.contains_app, Hp, Hh, Hf. reflexivity.
Qed.

(** With a plain prefix the canonical path of a generated name is the
    name it was generated from. *)
Lemma canonical_of_compiled (p h f : string) :
  Js.contains "-" p = false -> Js.contains "/" p = false ->
  hexString h = true ->
  Js.contains "/" f = false -> f <> "" ->
  getCanonicalPath (p +:+ "-" +:+ h +:+ "-" +:+ f) = f.
Proof.
  intros Hp Hps Hh Hf Hne.
  assert (Hhd : Js.contains "-" h = false) by (apply hex_not; easy).
  assert (Hhs : Js.contains "/" h = false) by (apply hex_not; easy).
  unfold getCanonicalPath.
  rewrite PathFacts.dirname_plain, PathFacts.basename_plain
    by (apply filename_plain; assumption).
  rewrite filename_split, (JsFacts.split_none "-" p Hp), (JsFacts.split_none "-" h Hhd).
  change (drop 2 ([p] ++ [h] ++ Js.split "-" f)) with (Js.split "-" f).
  rewrite (JsFacts.join_split "-" f).
  now apply PathFacts.join_dot_plain.
Qed.

(** With a dash in the prefix the canonical path keeps the hash and is
    never the name. *)
Lemma canonical_of_dashed (p h f : string) :
  Js.contains "-" p = true -> Js.contains "/" p = false ->
  hexString h = true ->
  Js.contains "/" f = false ->
  getCanonicalPath (p +:+ "-" +:+ h +:+ "-" +:+ f) <> f.
Proof.
  intros Hp Hps Hh Hf.
  assert (Hhd : Js.contains "-" h = false) by (apply hex_not; easy).
  assert (Hhs : Js.contains "/" h = false) by (apply hex_not; easy).
  unfold getCanonicalPath.
  rewrite PathFacts.dirname_plain, PathFacts.basename_plain
    by (apply filename_plain; assumption).
  rewrite filename_split, (JsFacts.split_none "-" h Hhd).
  destruct (split_two "-" p Hp) as (a & b & rest & Hsplit).
  rewrite Hsplit.
  change (drop 2 ((a :: b :: rest) ++ [h] ++ Js.split "-" f))
    with (rest ++ [h] ++ Js.split "-" f).
  pose proof (JsFacts.join_split "-" p) as Hjoin. rewrite Hsplit in Hjoin.
  change (String "-" "") with "-" in Hjoin.
  assert (Htail : Js.join "-" ([h] ++ Js.split "-" f) = h +:+ "-" +:+ f).
  { simpl app. rewrite JsFacts.join_cons by apply JsFacts.split_nonempty.
    now rewrite (JsFacts.join_split "-" f). }
  assert (Hcanon : exists x, Js.join "-" (rest ++ [h] ++ Js.split "-" f)
                             = x +:+ h +:+ "-" +:+ f
                             /\ Js.contains "/" x = false).
  { destruct rest as [|r rest].
    - exists "". split; [exact Htail | reflexivity].
    - exists (Js.join "-" (r :: rest) +:+ "-"). split.
      + rewrite JsFacts.join_app by discriminate. rewrite Htail.
        now rewrite !JsFacts.app_assoc.
      + rewrite JsFacts.contains_app. simpl (Js.contains "/" "-").
        rewrite orb_false_r.
        rewrite <- Hjoin in Hps.
        rewrite !JsFacts.join_cons in Hps by discriminate.
        rewrite !JsFacts.contains_app in Hps.
        repeat (apply orb_false_iff in Hps as [_ Hps]).
        exact Hps. }
  destruct Hcanon as (x & -> & Hx).
  assert (Hplain : Js.contains "/" (x +:+ h +:+ "-" +:+ f) = false).
  { rewrite !JsFacts.contains_app, Hx, Hhs, Hf. reflexivity. }
  assert (Hlen : String.length (x +:+ h +:+ "-" +:+ f) = S (String.length x + String.length h + String.length f)).
  { rewrite !JsFacts.length_app. simpl. lia. }
  rewrite PathFacts.join_dot_plain; [| exact Hplain |].
  - intros E. rewrite E in Hlen. lia.
  - intros E. rewrite E in Hlen. simpl in Hlen. lia.
Qed.

(** A generated name matches the compiled pattern. *)
Lemma compiled_name_matches (m : Manager) (h f : string) :
  free "/^$\" (Options.assetPrefix (options m)) = true ->
  hexString h = true ->
  Js.contains "/" f = false ->
  isCompiledAsset m (getCompiledAssetFilename m f h) = Some true.
Proof.
  intros Hp Hh Hf. unfold isCompiledAsset, compiledPattern, getCompiledAssetFilename.
  set (p := Options.assetPrefix (options m)) in *.
  rewrite RegExpFacts.compiledPattern_plain.
  2:{ revert Hp. apply free_weaken. intros c. simpl.
      destruct (Ascii.eqb c "/"); simpl; [now rewrite ?orb_true_r | easy]. }
  simpl fmap. f_equal.
  rewrite PathFacts.basename_plain.
  2:{ apply filename_plain; [| apply hex_not; easy | exact Hf].
      apply (free_contains _ _ _ Hp). reflexivity. }
  unfold RegExp.test.
  change (p +:+ "-" +:+ h +:+ "-" +:+ f) with (p +:+ String "-" (h +:+ String "-" f)).
  apply RegExpFacts.search_here. cbn [RegExp.matchHere andb].
  rewrite (RegExpFacts.matchHere_literals p "-").
  now apply RegExpFacts.matchHere_hex.
Qed.

End NamingFacts.

(** C9, as amended: for every non-empty base name [f] without slash and
    every non-empty string [h] of lower-case hexadecimal digits, if the
    asset prefix contains none of [-], [/], [^], [$] and backslash then
    [getCanonicalPath] applied to [getCompiledAssetFilename(f, h)]
    returns [f] and the generated name matches the compiled-asset
    pattern; if the asset prefix contains a [-] (and no [/]) the canonical
    path is never [f], because the first two dash-separated segments are
    dropped whatever they are. *)
Theorem canonical_path_of_compiled_filename (m : Manager) (f h : string) :
  Js.contains "/" f = false -> f <> "" -> hexString h = true ->
  (free "-/^$\" (Options.assetPrefix (options m)) = true ->
   getCanonicalPath (getCompiledAssetFilename m f h) = f
   /\ isCompiledAsset m (getCompiledAssetFilename m f h) = Some true)
  /\ (Js.contains "-" (Options.assetPrefix (options m)) = true ->
      Js.contains "/" (Options.assetPrefix (options m)) = false ->
      getCanonicalPath (getCompiledAssetFilename m f h) <> f).
Proof.
  intros Hf Hne Hh. split.
  - intros Hp. split.
    + apply NamingFacts.canonical_of_compiled; try assumption.
      * apply (NamingFacts.free_contains _ _ _ Hp). reflexivity.
      * apply (NamingFacts.free_contains _ _ _ Hp). reflexivity.
    + apply NamingFacts.compiled_name_matches; try assumption.
      revert Hp. apply NamingFacts.free_weaken. intros c. simpl.
      intros H. now rewrite H, orb_true_r.
  - intros Hd Hs. now apply NamingFacts.canonical_of_dashed.
Qed.

Lemma canonical_path_of_compiled_filename_witness :
  (getCanonicalPath (getCompiledAssetFilename Fixture.plain "jquery.js" "82470a") = "jquery.js"
   /\ isCompiledAsset Fixture.plain (getCompiledAssetFilename Fixture.plain "jquery.js" "82470a")
      = Some true)
  /\ (Js.contains "-" (Options.assetPrefix (options Fixture.plain)) = true ->
      Js.contains "/" (Options.assetPrefix (options Fixture.plain)) = false ->
      getCanonicalPath (getCompiledAssetFilename Fixture.plain "jquery.js" "82470a")
      <> "jquery.js").
Proof.
  destruct (canonical_path_of_compiled_filename Fixture.plain "jquery.js" "82470a")
    as [H1 H2]; [reflexivity | discriminate | reflexivity |].
  split; [apply H1; reflexivity | exact H2].
Defined.

(** C9 as stated fails: the asset prefix [compiled/asset] has no dash,
    yet the canonical path of the name generated for [foo.js] is
    [compiled/foo.js], and the name does not match the compiled pattern,
    which is tried on the base name [asset-abc-foo.js]. *)
Lemma compiled_filename_under_slash_prefix :
  Js.contains "-" (Options.assetPrefix (options Fixture.subdirectory)) = false
  /\ getCanonicalPath (getCompiledAssetFilename Fixture.subdirectory "foo.js" "abc")
     = "compiled/foo.js"
  /\ isCompiledAsset Fixture.subdirectory
       (getCompiledAssetFilename Fixture.subdirectory "foo.js" "abc") = Some false.
Proof. repeat split; reflexivity. Qed.

(** ** Glob expansion *)

Module GlobFacts.


Section Loop.
Context (host : Host) (known : list string).


(** What the loop has built only grows. *)
Lemma expandLoop_acc (l : list string) : forall acc,
  expandLoop host known l acc =
  match expandLoop host known l [] with
  | Return out => Return (acc ++ out)
  | Throw e => Throw e
  end.
Proof.
  induction l as [|g l IH]; intros acc; [simpl; now rewrite app_nil_r |].
  simpl. destruct (isGlob g); simpl.
  - destruct (List.filter _ known) as [|x matched]; [reflexivity |].
    rewrite (IH (acc ++ x :: matched)), (IH (x :: matched)).
    destruct (expandLoop host known l []); [|reflexivity].
    now rewrite app_assoc.
  - rewrite (IH (acc ++ [g])), (IH [g]).
    destruct (expandLoop host known l []); [|reflexivity].
    now rewrite app_assoc.
Qed.

(** A list of literal names passes through. *)
Lemma expandLoop_literals (l : list string) : forall acc,
  (forall e, In e l -> isGlob e = false) ->
  expandLoop host known l acc = Return (acc ++ l).
Proof.
  induction l as [|g l IH]; intros acc H; [simpl; now rewrite app_nil_r |].
  simpl. rewrite (H g (or_introl eq_refl)). simpl.
  rewrite IH by (intros e He; apply H; right; exact He).
  now rewrite <- app_assoc.
Qed.


End Loop.
End GlobFacts.



(** ** Resolution *)

Module ResolveFacts.
Section ResolveFacts.
Context (host : Host).








End ResolveFacts.
End ResolveFacts.

(** The repository's tests, evaluated on the model: [test/tags.js],
    'should generate script tags for javascript assets'. *)
Example test_script_tag :
  fst <$> asset Node.host 2 "jquery.js" Opts.empty false Fixture.short
  = Some (Return ("<script src=" +:+ Js.quoted "/asset-82470a-jquery.js"
                  +:+ " type=" +:+ Js.quoted "text/javascript" +:+ "></script>")).
Proof. vm_compute. reflexivity. Qed.

(** 'should emit an error when the manager doesn't know how to output a
    tag' *)
Example test_unknown_tag :
  (fun r => (fst r, emitted (snd r)))
    <$> asset Node.host 2 "robots.txt" Opts.empty false Fixture.plain
  = Some (Return "",
          [ErrorEvent ("Unable to create an HTML tag for type " +:+ Js.quoted ".txt")]).
Proof. vm_compute. reflexivity. Qed.

(** 'should prefix the asset URLs with a custom prefix defined with the
    asset' *)
Example test_asset_prefix :
  fst <$> asset Node.host 2 "image.png" (Fixture.prefixed "http://cdn.foo.com/") false
            Fixture.short
  = Some (Return ("<img src=" +:+ Js.quoted "http://cdn.foo.com/asset-74be16-image.png"
                  +:+ " />")).
Proof. vm_compute. reflexivity. Qed.

(** C1, the code at the failing input: with [urlPrefix] set to
    [http://cdn.foo.com/] and the asset defined with the prefix
    [http://elsewhere.com], [assetUrl] returns the path behind the global
    prefix; the claim asks for [http://elsewhere.com/asset-74be16-image.png]. *)
Theorem assetUrl_global_prefix_first :
  fst (assetUrl Node.host "image.png" (Fixture.prefixed "http://elsewhere.com") false
         Fixture.cdn)
  = Return "http://cdn.foo.com/asset-74be16-image.png".
Proof. vm_compute. reflexivity. Qed.

(** Whatever the asset is defined with, a global prefix that is set is
    the one chosen. *)
Lemma chosenPrefix_global (m : Manager) (o : Opts.t) :
  Options.urlPrefix (options m) <> "" ->
  chosenPrefix m o = Some (Options.urlPrefix (options m)).
Proof.
  intros H. unfold chosenPrefix. apply JsFacts.truthy_iff in H. now rewrite H.
Qed.



(** ** Missing files and compilers *)

Module FallbackFacts.



Lemma heldUnder_At (m : Manager) (k : string) : heldUnder m k = assetAt m k.
Proof. reflexivity. Qed.

Section Try.
Context (m : Manager) (base filename : string).

Let names (compilers : list Compiler.t) : list string :=
  List.filter (fun name => negb (String.eqb name filename))
    (map (fun compiler => base +:+ Compiler.extname compiler) compilers).


End Try.





Section Loop.
Context (m : Manager) (identifier : string) (o : Opts.t).





End Loop.



End FallbackFacts.



(** ** Failures of a resolution *)

Module FailureFacts.
Section FailureFacts.
Context (host : Host).

















End FailureFacts.
End FailureFacts.





(** Without a listener for ['error'] the failure is thrown: a manager
    fresh from the constructor, asked for a file that it does not
    have. *)
Example failure_thrown_without_listener :
  newManager Fixture.root defaultOptions = Return (Fixture.created defaultOptions)
  /\ assetPath Node.host "unknown.js" Opts.empty false (Fixture.created defaultOptions)
     = (Throw (Error ("Asset " +:+ Js.quoted "unknown.js" +:+ " could not be found")),
        Fixture.created defaultOptions).
Proof. split; reflexivity. Qed.

(** An identifier that [this.compiledAssets] inherits makes [assetPath]
    throw after the resolution has succeeded: the value found under
    [constructor] has no [filter]. *)
Example inherited_identifier_throws :
  exists e,
    fst (assetPath Node.host "constructor" (Fixture.defined ["jquery.js"]) false
           Fixture.plain)
    = Throw (TypeError e).
Proof. eexists. vm_compute. reflexivity. Qed.
(** ** The compilation pipeline *)

Module PipelineFacts.
Section PipelineFacts.
Context (host : Host) (m : Manager) (d : Disk).



(** When every asset has a name, the series does not throw. *)
Lemma compileEach_named (assets : list Member.t) : forall (contents : list string),
  forallb (fun asset => match Member.name asset with Some _ => true | None => false end)
          assets = true ->
  exists r, compileEach m d assets contents = Return r.
Proof.
  induction assets as [|a assets IH]; intros contents H; [now eexists |].
  simpl in H. apply andb_true_iff in H as [Ha H].
  simpl. unfold compileOne. destruct (Member.name a) as [name|]; [| discriminate].
  destruct (readFile d _); [| now eexists].
  destruct (Obj.lookup _ _) as [compiler|]; [| now apply IH].
  destruct (Compiler.compile compiler _); [now apply IH | now eexists].
Qed.

Lemma compileAsset_named (file : Pending.t) :
  allNamed file = true ->
  exists r, fst (compileAsset host m d file) = Return r.
Proof.
  intros H. unfold compileAsset.
  destruct (compileEach_named (Pending.assets file) [] H) as [[contents|msg] ->].
  - destruct (finishCompile host m d file contents). now eexists.
  - now eexists.
Qed.

End PipelineFacts.
End PipelineFacts.





(** An asset without a name makes [compileAsset] throw instead of
    calling back: the bundle of [jquery.js] and [__proto__], once
    resolved, holds the prototype, which has no [name]. *)
Example compileAsset_throws_without_name :
  exists file e,
    pendingAssets (snd (assetPath Node.host "bundle.js"
                          (Fixture.defined ["jquery.js"; "__proto__"]) false Fixture.plain))
      !! "bundle.js" = Some file
    /\ Pending.assets file
       = [Member.Indexed jqueryAsset; Member.Inherited "__proto__"]
    /\ fst (compileAsset Node.host Fixture.plain Fixture.disk file) = Throw (TypeError e).
Proof. do 2 eexists. repeat split; vm_compute; reflexivity. Qed.

(** ** The hash cache *)

Module ObjFacts.
Section ObjFacts.
Context {V : Type}.

Lemma lookup_In (k : string) (o : list (string * V)) (v : V) :
  Obj.lookup k o = Some v -> In (k, v) o.
Proof.
  induction o as [|[k' v'] o IH]; simpl; [discriminate |].
  destruct (String.eqb_spec k k') as [->|Hne].
  - intros H. injection H as ->. now left.
  - intros H. right. now apply IH.
Qed.

(** With distinct keys an entry of the object is what a lookup of its
    key finds. *)
Lemma In_lookup (k : string) (o : list (string * V)) (v : V) :
  List.NoDup (Obj.keys o) -> In (k, v) o -> Obj.lookup k o = Some v.
Proof.
  unfold Obj.keys. induction o as [|[k' v'] o IH]; simpl; [easy |].
  intros Hnd Hin. apply NoDup_cons_iff in Hnd as [Hk Hnd].
  destruct Hin as [Heq|Hin].
  - injection Heq as -> ->. now rewrite String.eqb_refl.
  - destruct (String.eqb_spec k k') as [->|Hne]; [| now apply IH].
    exfalso. apply Hk. apply in_map_iff. now exists (k', v).
Qed.

Lemma lookup_map {W : Type} (f : V -> W) (k : string) (o : list (string * V)) :
  Obj.lookup k (map (fun entry => (fst entry, f (snd entry))) o) = f <$> Obj.lookup k o.
Proof.
  induction o as [|[k' v'] o IH]; simpl; [reflexivity |].
  now destruct (String.eqb k k').
Qed.

End ObjFacts.
End ObjFacts.

Module HashFacts.
Section HashFacts.
Context (host : Host).

(** What the manifest written for an asset gives back. *)
Lemma stored_entry (a : Asset.t) :
  Manifest.property "mtime" (Some (Manifest.ofAsset a)) = Return (Some (JNum (Asset.mtime a)))
  /\ Manifest.property "hash" (Some (Manifest.ofAsset a)) = Return (Asset.hash a).
Proof.
  unfold Manifest.ofAsset. split; [reflexivity |].
  destruct (Asset.hash a); reflexivity.
Qed.

(** Against the manifest written for [all], an asset of [all] is found
    with its own modification time and keeps its hash. *)
Lemma hashOne_stored (m : Manager) (d : Disk) (all : list (string * Asset.t))
    (filename : string) (file : Asset.t) :
  Obj.lookup filename all = Some file ->
  hashOne host m d (Manifest.ofAssets all) filename file = Return (Asset.hash file, false).
Proof.
  intros H. unfold hashOne, Manifest.ofAssets, Manifest.has, Manifest.get, Obj.has.
  rewrite ObjFacts.lookup_map, H. simpl fmap.
  destruct (stored_entry file) as [-> ->].
  unfold Manifest.sameTime. now rewrite Z.eqb_refl.
Qed.

Lemma withHash_same (file : Asset.t) : withHash file (Asset.hash file) = file.
Proof. now destruct file. Qed.

Lemma hashLoop_stored (m : Manager) (d : Disk) (all : list (string * Asset.t))
    (todo : list (string * Asset.t)) : forall (done : list (string * Asset.t)) (outdated : bool),
  (forall k f, In (k, f) todo -> Obj.lookup k all = Some f) ->
  hashLoop host m d (Manifest.ofAssets all) todo done outdated
  = (Return outdated, done ++ todo).
Proof.
  induction todo as [|[k f] todo IH]; intros done outdated H.
  - simpl. now rewrite app_nil_r.
  - simpl. rewrite (hashOne_stored m d all k f) by (apply H; now left).
    rewrite withHash_same, orb_false_r.
    rewrite IH by (intros k' f' Hin; apply H; now right).
    now rewrite <- app_assoc.
Qed.

(** The loop changes hashes only: keys, names and times stay. *)
Lemma hashLoop_keys (m : Manager) (d : Disk) (manifest : json)
    (todo : list (string * Asset.t)) : forall (done hashed : list (string * Asset.t))
    (outdated : bool) (r : outcome bool),
  hashLoop host m d manifest todo done outdated = (r, hashed) ->
  Obj.keys hashed = Obj.keys (done ++ todo).
Proof.
  induction todo as [|[k f] todo IH]; intros done hashed outdated r H.
  - simpl in H. injection H as _ <-. now rewrite app_nil_r.
  - simpl in H. destruct (hashOne host m d manifest k f) as [[h computed]|e].
    + apply IH in H. rewrite H. unfold Obj.keys. rewrite <- app_assoc. simpl.
      now rewrite !map_app.
    + now injection H as _ <-.
Qed.

Lemma withAssets_same (m : Manager) : withAssets m (assets m) = m.
Proof. now destruct m. Qed.

Lemma withAssets_twice (m : Manager) (a b : list (string * Asset.t)) :
  withAssets (withAssets m a) b = withAssets m b.
Proof. reflexivity. Qed.

End HashFacts.
End HashFacts.

(** [hashAssets] reuses a stored hash exactly when the manifest has an
    entry for the file with the same modification time.  For a manifest
    that is an object of objects and a file that can be read: the hash is
    computed afresh, and the cache marked outdated, unless the entry of
    the file holds an [mtime] equal to the file's; then the [hash] of the
    entry is taken as it is. *)
Theorem hashOne_reuses_same_mtime (host : Host) (m : Manager) (d : Disk)
    (fields : list (string * json)) (filename content : string) (file : Asset.t) :
  files d !! Path.join (dir m) filename = Some content ->
  (forall k v, In (k, v) fields -> exists entry, v = JObj entry) ->
  exists h computed,
    hashOne host m d (JObj fields) filename file = Return (h, computed)
    /\ (computed = false <->
        exists entry, Obj.lookup filename fields = Some (JObj entry)
                      /\ Obj.lookup "mtime" entry = Some (JNum (Asset.mtime file)))
    /\ (computed = false ->
        exists entry, Obj.lookup filename fields = Some (JObj entry)
                      /\ h = Obj.lookup "hash" entry)
    /\ (computed = true ->
        h = Some (JStr (createHash host (Options.hash (options m)) content))).
Proof.
  intros Hfile Hobjects.
  unfold hashOne, hashFile, Manifest.has, Manifest.get, Obj.has. rewrite Hfile.
  destruct (Obj.lookup filename fields) as [v|] eqn:Hv.
  - destruct (Hobjects _ _ (ObjFacts.lookup_In _ _ _ Hv)) as [entry ->].
    simpl Manifest.property.
    destruct (Manifest.sameTime (Obj.lookup "mtime" entry) (Asset.mtime file)) eqn:Ht.
    + exists (Obj.lookup "hash" entry), false.
      split; [simpl; rewrite Ht; reflexivity |]. split; [| split].
      * split; [intros _ | reflexivity]. exists entry. split; [reflexivity |].
        unfold Manifest.sameTime in Ht.
        destruct (Obj.lookup "mtime" entry) as [[| | n | | |]|]; try discriminate.
        apply Z.eqb_eq in Ht. now subst.
      * intros _. now exists entry.
      * discriminate.
    + eexists _, true. split; [simpl; rewrite Ht; reflexivity |]. split; [| split].
      * split; [discriminate |]. intros (entry' & He & Hm).
        injection He as <-. unfold Manifest.sameTime in Ht.
        rewrite Hm, Z.eqb_refl in Ht. discriminate.
      * discriminate.
      * reflexivity.
  - eexists _, true. split; [reflexivity |]. split; [| split].
    + split; [discriminate |]. now intros (entry' & He & _).
    + discriminate.
    + reflexivity.
Qed.

Lemma hashOne_reuses_same_mtime_witness :
  exists h computed,
    hashOne Node.host Fixture.plain Fixture.disk
      (JObj [("jquery.js", JObj [("mtime", JNum 1400000000000); ("hash", JStr "cafe")])])
      "jquery.js"
      {| Asset.name := "jquery.js"; Asset.mtime := 1400000000000; Asset.hash := None |}
    = Return (h, computed)
    /\ (computed = false -> h = Some (JStr "cafe")).
Proof.
  destruct (hashOne_reuses_same_mtime Node.host Fixture.plain Fixture.disk
              [("jquery.js", JObj [("mtime", JNum 1400000000000); ("hash", JStr "cafe")])]
              "jquery.js" ("window.jQuery = {};" +:+ Fixture.newline)
              {| Asset.name := "jquery.js"; Asset.mtime := 1400000000000;
                 Asset.hash := None |})
    as (h & computed & Hrun & _ & Hreuse & _).
  - vm_compute. reflexivity.
  - intros k v [Heq|[]]. injection Heq as _ <-. now eexists.
  - exists h, computed. split; [exact Hrun |].
    intros Hc. destruct (Hreuse Hc) as (entry & He & ->).
    vm_compute in He. injection He as <-. reflexivity.
Defined.

(** A manifest file that holds [null] passes the [typeof] check and makes
    [hashAssets] throw a [TypeError] at the first asset, outside the
    [try]; nothing is hashed and nothing is written. *)
Theorem hashAssets_null_manifest (host : Host) (m : Manager) (d : Disk)
    (filename : string) (file : Asset.t) (rest : list (string * Asset.t)) :
  manifestAt d = Parsed JNull ->
  assets m = (filename, file) :: rest ->
  hashAssets host m d
  = (Throw (TypeError ("Cannot use 'in' operator to search for '" +:+ filename
                       +:+ "' in null")), m, d).
Proof.
  intros Hm Ha. unfold hashAssets. rewrite Hm, Ha. simpl.
  rewrite <- Ha. now rewrite HashFacts.withAssets_same.
Qed.

Lemma hashAssets_null_manifest_witness :
  fst (fst (hashAssets Node.host Fixture.plain (withManifest Fixture.disk JNull)))
  = Throw (TypeError "Cannot use 'in' operator to search for 'foo.less' in null").
Proof.
  rewrite (hashAssets_null_manifest Node.host Fixture.plain (withManifest Fixture.disk JNull)
             "foo.less"
             {| Asset.name := "foo.less"; Asset.mtime := 1400000000000;
                Asset.hash := Some (JStr "a3f2a013a15199e95ff2e35da2e4b577") |}
             (tl (assets Fixture.plain))).
  - reflexivity.
  - reflexivity.
  - vm_compute. reflexivity.
Defined.

(** Running [hashAssets] again after a run that rewrote the manifest is
    a no-op: with distinct keys in the asset map and a writable directory,
    the second run finds every asset in the manifest with its own
    modification time, reuses every hash, returns [false] and writes
    nothing. *)
Theorem hashAssets_twice (host : Host) (m m1 : Manager) (d d1 : Disk) :
  List.NoDup (Obj.keys (assets m)) ->
  writable d = true ->
  hashAssets host m d = (Return true, m1, d1) ->
  hashAssets host m1 d1 = (Return false, m1, d1).
Proof.
  intros Hnd Hw H. unfold hashAssets in H.
  destruct (hashLoop host m d (Manifest.load (manifestAt d)) (assets m) [] false)
    as [[outdated|e] hashed] eqn:Hloop; [| discriminate].
  destruct outdated.
  2:{ discriminate. }
  unfold writeManifest in H. rewrite Hw in H. injection H as <- <-.
  apply HashFacts.hashLoop_keys in Hloop. simpl in Hloop.
  unfold hashAssets. simpl manifestAt. simpl assets.
  assert (Hload : Manifest.load (Parsed (Manifest.ofAssets hashed)) = Manifest.ofAssets hashed)
    by reflexivity.
  rewrite Hload.
  rewrite (HashFacts.hashLoop_stored host _ _ hashed hashed [] false).
  - simpl. reflexivity.
  - intros k f Hin. apply ObjFacts.In_lookup; [| exact Hin]. now rewrite Hloop.
Qed.

Lemma hashAssets_twice_witness :
  exists m1 d1,
    hashAssets Node.host (unhashed Fixture.plain) Fixture.disk = (Return true, m1, d1)
    /\ hashAssets Node.host m1 d1 = (Return false, m1, d1).
Proof.
  eexists _, _. split.
  - vm_compute. reflexivity.
  - apply (hashAssets_twice Node.host (unhashed Fixture.plain) _ Fixture.disk).
    + vm_compute. repeat constructor; simpl; intuition discriminate.
    + reflexivity.
    + vm_compute. reflexivity.
Defined.

Module EmptyManifest.
Section EmptyManifest.
Context (host : Host) (m : Manager) (d : Disk).

Lemma hashLoop_fresh (todo : list (string * Asset.t)) :
  forall (done : list (string * Asset.t)) (outdated : bool),
  (forall k f, In (k, f) todo -> exists c, files d !! Path.join (dir m) k = Some c) ->
  exists hashed,
    hashLoop host m d (JObj []) todo done outdated
    = (Return (outdated || match todo with [] => false | _ => true end), done ++ hashed)
    /\ Forall2 (rehashed host m d) todo hashed.
Proof.
  induction todo as [|[k f] todo IH]; intros done outdated H.
  - exists []. split; [simpl; now rewrite orb_false_r, app_nil_r | constructor].
  - destruct (H k f (or_introl eq_refl)) as [c Hc].
    destruct (IH (done ++ [(k, withHash f (Some (JStr (createHash host
                                  (Options.hash (options m)) c))))]) (outdated || true))
      as (hashed & Hloop & Hall).
    { intros k' f' Hin. apply (H k' f'). now right. }
    eexists (_ :: hashed). split.
    + simpl. unfold hashOne, hashFile. simpl. rewrite Hc, Hloop.
      rewrite <- app_assoc. simpl. f_equal.
      now rewrite !orb_true_r.
    + constructor; [| exact Hall].
      unfold rehashed. simpl. repeat split; try reflexivity. now exists c.
Qed.

End EmptyManifest.
End EmptyManifest.

(** A manifest file that is absent, is not JSON, or holds a number, a
    string or a boolean is an empty manifest: with readable files and a
    writable directory [hashAssets] hashes every asset afresh, returns
    [true] and writes the manifest of the asset map. *)
Theorem hashAssets_without_manifest (host : Host) (m : Manager) (d : Disk) :
  (manifestAt d = Absent \/ manifestAt d = NotJson
   \/ exists j, manifestAt d = Parsed j /\ Value.typeof j <> "object") ->
  (forall k f, In (k, f) (assets m) ->
     exists c, files d !! Path.join (dir m) k = Some c) ->
  writable d = true ->
  assets m <> [] ->
  exists m1 d1,
    hashAssets host m d = (Return true, m1, d1)
    /\ Forall2 (rehashed host m d) (assets m) (assets m1)
    /\ manifestAt d1 = Parsed (Manifest.ofAssets (assets m1))
    /\ files d1 = files d.
Proof.
  intros Hm Hread Hw Hne.
  assert (Hload : Manifest.load (manifestAt d) = JObj []).
  { destruct Hm as [-> | [-> | (j & -> & Hj)]]; try reflexivity.
    unfold Manifest.load. destruct (String.eqb_spec (Value.typeof j) "object"); easy. }
  destruct (EmptyManifest.hashLoop_fresh host m d (assets m) [] false Hread)
    as (hashed & Hloop & Hall).
  unfold hashAssets. rewrite Hload, Hloop. simpl app.
  destruct (assets m) as [|a rest] eqn:Ha; [congruence |]. simpl orb.
  unfold writeManifest. rewrite Hw.
  eexists _, _. split; [reflexivity |]. simpl. repeat split. exact Hall.
Qed.

Lemma hashAssets_without_manifest_witness :
  exists m1 d1,
    hashAssets Node.host (unhashed Fixture.plain) Fixture.disk = (Return true, m1, d1)
    /\ map (fun entry => Asset.hash (snd entry)) (assets m1)
       = [ Some (JStr "a3f2a013a15199e95ff2e35da2e4b577");
           Some (JStr "d41d8cd98f00b204e9800998ecf8427e");
           Some (JStr "9e973e7c932c7f421beab8c3ef2d4c06");
           Some (JStr "d41d8cd98f00b204e9800998ecf8427e") ].
Proof.
  destruct (hashAssets_without_manifest Node.host (unhashed Fixture.plain) Fixture.disk)
    as (m1 & d1 & Hrun & _).
  - now left.
  - intros k f Hin. vm_compute in Hin.
    destruct Hin as [H|[H|[H|[H|[]]]]]; injection H as <- _; eexists; vm_compute;
      reflexivity.
  - reflexivity.
  - discriminate.
  - exists m1, d1. split; [exact Hrun |].
    vm_compute in Hrun. injection Hrun as <- _. reflexivity.
Defined.

(** ** Serving requests *)

Module ServingFacts.

Lemma NoDup_map_inj {A B} (f : A -> B) (l : list A) (x y : A) :
  List.NoDup (map f l) -> In x l -> In y l -> f x = f y -> x = y.
Proof.
  induction l as [|a l IH]; simpl; [easy |].
  intros Hnd Hx Hy Hf. apply NoDup_cons_iff in Hnd as [Ha Hnd].
  destruct Hx as [->|Hx], Hy as [->|Hy]; try reflexivity.
  - exfalso. apply Ha. rewrite Hf. now apply in_map.
  - exfalso. apply Ha. rewrite <- Hf. now apply in_map.
  - now apply IH.
Qed.

Lemma NoDup_map_filter {A B} (f : A -> B) (p : A -> bool) (l : list A) :
  List.NoDup (map f l) -> List.NoDup (map f (List.filter p l)).
Proof.
  induction l as [|a l IH]; simpl; [easy |].
  intros Hnd. apply NoDup_cons_iff in Hnd as [Ha Hnd].
  destruct (p a); [| now apply IH].
  simpl. apply List.NoDup_cons; [| now apply IH].
  intros Hin. apply Ha. apply in_map_iff in Hin as (x & Hx & Hin).
  apply filter_In in Hin as [Hin _]. apply in_map_iff. now exists x.
Qed.

Lemma NoDup_snoc {A} (l : list A) (x : A) :
  List.NoDup l -> ~ In x l -> List.NoDup (l ++ [x]).
Proof.
  induction l as [|a l IH]; simpl; intros Hnd Hx.
  - apply List.NoDup_cons; [easy | constructor].
  - apply NoDup_cons_iff in Hnd as [Ha Hnd]. apply List.NoDup_cons.
    + intros Hin. apply in_app_or in Hin as [Hin|[<-|[]]]; [easy |]. apply Hx. now left.
    + apply IH; [exact Hnd |]. intros Hin. apply Hx. now right.
Qed.

Lemma compilationOf_In (n : nat) (s : Server) (c : string) (file : Pending.t) :
  compilationOf n s = Some (c, file) -> In (n, c, file) (compiling s).
Proof.
  unfold compilationOf.
  destruct (List.filter _ (compiling s)) as [|[[n' c'] file'] rest] eqn:E; [discriminate |].
  intros H. injection H as -> ->.
  assert (Hin : In (n', c, file) (List.filter (fun x => Nat.eqb (fst (fst x)) n) (compiling s)))
    by (rewrite E; now left).
  apply filter_In in Hin as [Hin Hn]. simpl in Hn. apply Nat.eqb_eq in Hn. now subst.
Qed.

Lemma In_compilationOf (n : nat) (s : Server) (c : string) (file : Pending.t) :
  List.NoDup (map (fun x => fst (fst x)) (compiling s)) ->
  In (n, c, file) (compiling s) -> compilationOf n s = Some (c, file).
Proof.
  intros Hnd Hin. unfold compilationOf.
  destruct (List.filter _ (compiling s)) as [|[[n' c'] file'] rest] eqn:E.
  - assert (H : In (n, c, file)
                  (List.filter (fun x => Nat.eqb (fst (fst x)) n) (compiling s))).
    { apply filter_In. split; [exact Hin | apply Nat.eqb_refl]. }
    now rewrite E in H.
  - assert (H : In (n', c', file')
                  (List.filter (fun x => Nat.eqb (fst (fst x)) n) (compiling s)))
      by (rewrite E; now left).
    apply filter_In in H as [H Hn]. simpl in Hn. apply Nat.eqb_eq in Hn. subst n'.
    assert (Heq : (n, c', file') = (n, c, file))
      by (apply (NoDup_map_inj _ _ _ _ Hnd H Hin); reflexivity).
    now injection Heq as -> ->.
Qed.

(** Releasing the queue delivers to each queued request in order. *)
Lemma forEach_resume (err : option string) (queue : list nat) : forall (s : Server),
  (forall w, In w queue ->
     exists r, requests s !! w = Some r /\ canonicalAssetName r = None) ->
  exists s',
    forEach (fun w => resumeWaiting w err) queue s = Some s'
    /\ manager s' = manager s /\ disk s' = disk s /\ requests s' = requests s
    /\ compiling s' = compiling s /\ invoked s' = invoked s
    /\ delivered s' = delivered s ++ map (fun w => (w, outcomeOf err)) queue.
Proof.
  induction queue as [|w queue IH]; intros s H.
  - exists s. simpl. now rewrite app_nil_r.
  - destruct (H w (or_introl eq_refl)) as (r & Hr & Hname).
    destruct (IH (deliver w (outcomeOf err) s)) as (s' & Hrun & Hm & Hd & Hq & Hc & Hi & Hdel).
    { intros w' Hw'. apply H. now right. }
    exists s'. simpl forEach. unfold resumeWaiting at 1, handlers, named.
    rewrite Hr, Hname. simpl negb. cbv iota.
    rewrite Hrun. repeat split; try assumption.
    rewrite Hdel. simpl. now rewrite <- app_assoc.
Qed.

Section Steps.
Context (host : Host).

Lemma Serialized_start (m : Manager) (d : Disk) :
  compilingNow m = ∅ -> Serialized (startServer m d).
Proof.
  intros He. split; simpl.
  - intros c _ [q Hq]. rewrite He, lookup_empty in Hq. discriminate.
  - intros n c file [].
  - constructor.
  - constructor.
  - intros n c file [].
  - intros c queue w Hq. rewrite He, lookup_empty in Hq. discriminate.
  - intros n c file [].
Qed.

Lemma Serialized_served (s : Server) (n : nat) (r : Request) (how : delivery) :
  Serialized s -> requests s !! n = None -> canonicalAssetName r = None ->
  Serialized (deliver n how (withRequest n r s)).
Proof.
  intros [H1 H2 H3 H4 H5 H6 H7] Hfresh Hname. split; simpl; try assumption.
  - intros n' c file Hin. destruct (H5 _ _ _ Hin) as (r' & Hr' & Hn').
    exists r'. split; [| exact Hn'].
    rewrite lookup_insert_ne; [exact Hr' |]. intros ->. congruence.
  - intros c queue w Hq Hw. destruct (H6 _ _ _ Hq Hw) as (r' & Hr' & Hn').
    exists r'. split; [| exact Hn'].
    rewrite lookup_insert_ne; [exact Hr' |]. intros ->. congruence.
Qed.

Lemma Serialized_arrive (s s' : Server) (n : nat) (url : string) :
  Serialized s -> arrive n url s = Some s' -> Serialized s'.
Proof.
  intros Hs. unfold arrive.
  destruct (requests s !! n) eqn:Hfresh; [discriminate |].
  destruct (isCompiledAsset (manager s) url) as [[|]|]; [| | discriminate].
  2:{ intros H. injection H as <-. now apply Serialized_served. }
  set (c := Js.sliceFrom (getCanonicalPath url) 1).
  destruct (pendingAssets (manager s) !! c) as [file|].
  2:{ destruct (pendingInherits (manager s) c); [discriminate |].
      intros H. injection H as <-. now apply Serialized_served. }
  destruct Hs as [H1 H2 H3 H4 H5 H6 H7].
  destruct (compilingNow (manager s) !! c) as [waiting|] eqn:Hreg;
    [| destruct (Js.inherited c || negb (allNamed file)) eqn:Hok; [discriminate |]];
    intros H; injection H as <-.
  - (* the request joins the queue *)
    split; simpl.
    + intros c' Ht [q Hq]. apply H1; [exact Ht |].
      destruct (decide (c = c')) as [<-|Hne]; [now rewrite Hreg |].
      rewrite lookup_insert_ne in Hq by exact Hne. now rewrite Hq.
    + intros n' c' file' Hin.
      destruct (decide (c = c')) as [<-|Hne]; [now rewrite lookup_insert_eq |].
      rewrite lookup_insert_ne by exact Hne. now apply (H2 n' c' file').
    + exact H3.
    + exact H4.
    + intros n' c' file' Hin. destruct (H5 _ _ _ Hin) as (r' & Hr' & Hn').
      exists r'. split; [| exact Hn'].
      rewrite lookup_insert_ne; [exact Hr' |]. intros ->. congruence.
    + intros c' queue w Hq Hw.
      destruct (decide (c = c')) as [<-|Hne].
      * rewrite lookup_insert_eq in Hq. injection Hq as <-.
        apply in_app_or in Hw as [Hw|[<-|[]]].
        -- destruct (H6 _ _ _ Hreg Hw) as (r' & Hr' & Hn').
           exists r'. split; [| exact Hn'].
           rewrite lookup_insert_ne; [exact Hr' |]. intros ->. congruence.
        -- eexists. split; [apply lookup_insert_eq | reflexivity].
      * rewrite lookup_insert_ne in Hq by exact Hne.
        destruct (H6 _ _ _ Hq Hw) as (r' & Hr' & Hn').
        exists r'. split; [| exact Hn'].
        rewrite lookup_insert_ne; [exact Hr' |]. intros ->. congruence.
    + exact H7.
  - (* the request starts the compilation *)
    assert (Hnot : forall n' file', ~ In (n', c, file') (compiling s)).
    { intros n' file' Hin. destruct (H2 _ _ _ Hin) as [q Hq]. congruence. }
    assert (Hnum : forall c' file', ~ In (n, c', file') (compiling s)).
    { intros c' file' Hin. destruct (H5 _ _ _ Hin) as (r' & Hr' & _). congruence. }
    split; simpl.
    + intros c' Ht [q Hq].
      destruct (decide (c = c')) as [<-|Hne].
      * exists n, file. simpl. apply in_or_app. right. now left.
      * rewrite lookup_insert_ne in Hq by exact Hne.
        destruct (H1 c' Ht) as (n' & file' & Hin); [now rewrite Hq |].
        exists n', file'. simpl. apply in_or_app. now left.
    + intros n' c' file' Hin. apply in_app_or in Hin as [Hin|[Heq|[]]].
      * destruct (decide (c = c')) as [<-|Hne]; [now rewrite lookup_insert_eq |].
        rewrite lookup_insert_ne by exact Hne. now apply (H2 n' c' file').
      * injection Heq as <- <- <-. now rewrite lookup_insert_eq.
    + rewrite map_app. simpl. apply NoDup_snoc; [exact H3 |].
      intros Hin. apply in_map_iff in Hin as ([[n' c'] file'] & Hc & Hin).
      simpl in Hc. subst c'. now apply (Hnot n' file').
    + rewrite map_app. simpl. apply NoDup_snoc; [exact H4 |].
      intros Hin. apply in_map_iff in Hin as ([[n' c'] file'] & Hc & Hin).
      simpl in Hc. subst n'. now apply (Hnum c' file').
    + intros n' c' file' Hin. apply in_app_or in Hin as [Hin|[Heq|[]]].
      * destruct (H5 _ _ _ Hin) as (r' & Hr' & Hn').
        exists r'. split; [| exact Hn'].
        rewrite lookup_insert_ne; [exact Hr' |]. intros ->. congruence.
      * injection Heq as <- <- <-. eexists. split; [apply lookup_insert_eq | reflexivity].
    + intros c' queue w Hq Hw.
      destruct (decide (c = c')) as [<-|Hne].
      * rewrite lookup_insert_eq in Hq. injection Hq as <-. destruct Hw.
      * rewrite lookup_insert_ne in Hq by exact Hne.
        destruct (H6 _ _ _ Hq Hw) as (r' & Hr' & Hn').
        exists r'. split; [| exact Hn'].
        rewrite lookup_insert_ne; [exact Hr' |]. intros ->. congruence.
    + intros n' c' file' Hin. apply in_app_or in Hin as [Hin|[Heq|[]]].
      * now apply (H7 n' c' file').
      * injection Heq as <- <- <-.
        apply orb_false_iff in Hok as [_ Hok]. now apply negb_false_iff in Hok.
Qed.

(** What [finish] does in a state that the handlers have kept. *)
Lemma finish_result (s : Server) (n : nat) (c : string) (file : Pending.t) :
  Serialized s -> In (n, c, file) (compiling s) ->
  exists s' r,
    fst (compileAsset host (manager s) (disk s) file) = Return r
    /\ finish host n s = Some s'
    /\ disk s' = snd (compileAsset host (manager s) (disk s) file)
    /\ requests s' = requests s
    /\ compiling s' = List.filter (fun x => negb (Nat.eqb (fst (fst x)) n)) (compiling s)
    /\ invoked s' = invoked s
    /\ let how := howOf r in
       if Js.truthy c then
         exists queue,
           compilingNow (manager s) !! c = Some queue
           /\ compilingNow (manager s') = delete c (compilingNow (manager s))
           /\ delivered s' = delivered s ++ released queue n how
       else
         compilingNow (manager s') = compilingNow (manager s)
         /\ delivered s' = delivered s ++ [(n, how)].
Proof.
  intros Hs Hin. pose proof Hs as [H1 H2 H3 H4 H5 H6 H7].
  unfold finish. rewrite (ServingFacts.In_compilationOf n s c file H4 Hin).
  destruct (H5 _ _ _ Hin) as (r & Hr & Hname).
  destruct (H2 _ _ _ Hin) as [queue Hq].
  assert (Hgo : forall err d',
    exists s', resumeStarter n err (withoutCompilation n s d') = Some s'
      /\ disk s' = d' /\ requests s' = requests s
      /\ compiling s' = List.filter (fun x => negb (Nat.eqb (fst (fst x)) n)) (compiling s)
      /\ invoked s' = invoked s
      /\ if Js.truthy c then
           exists queue,
             compilingNow (manager s) !! c = Some queue
             /\ compilingNow (manager s') = delete c (compilingNow (manager s))
             /\ delivered s' = delivered s ++ released queue n (outcomeOf err)
         else
           compilingNow (manager s') = compilingNow (manager s)
           /\ delivered s' = delivered s ++ [(n, outcomeOf err)]).
  { intros err d'. unfold resumeStarter, handlers, named. simpl requests.
    rewrite Hr, Hname. destruct (Js.truthy c) eqn:Ht; simpl negb; cbv iota.
    - simpl manager. rewrite Hq.
      destruct (ServingFacts.forEach_resume err queue
                  (withRegistry (delete c (compilingNow (manager s)))
                     (withoutCompilation n s d')))
        as (s2 & Hrun & Hm & Hd & Hreq & Hc & Hi & Hdel).
      { intros w Hw. simpl. now apply (H6 c queue w). }
      rewrite Hrun. eexists. split; [reflexivity |]. simpl.
      rewrite Hd, Hreq, Hc, Hi, Hm, Hdel. simpl.
      repeat split. exists queue. repeat split.
      unfold released. now rewrite <- app_assoc.
    - eexists. split; [reflexivity |]. simpl. repeat split. }
  destruct (PipelineFacts.compileAsset_named host (manager s) (disk s) file
              (H7 _ _ _ Hin)) as [back Hback].
  destruct (compileAsset host (manager s) (disk s) file) as [called d'].
  simpl in Hback. subst called. destruct back as [u|msg].
  - destruct (Hgo None d') as (s' & Hrun & Hrest). exists s', (Ok u).
    split; [reflexivity |]. split; [exact Hrun |]. simpl. exact Hrest.
  - destruct (Hgo (Some msg) d') as (s' & Hrun & Hrest). exists s', (Err msg).
    split; [reflexivity |]. split; [exact Hrun |]. simpl. exact Hrest.
Qed.

Lemma Serialized_finish (s s' : Server) (n : nat) :
  Serialized s -> finish host n s = Some s' -> Serialized s'.
Proof.
  intros Hs Hf. pose proof Hs as [H1 H2 H3 H4 H5 H6 H7].
  assert (Hc : exists c file, In (n, c, file) (compiling s)).
  { unfold finish in Hf. destruct (compilationOf n s) as [[c file]|] eqn:E; [| discriminate].
    exists c, file. now apply ServingFacts.compilationOf_In. }
  destruct Hc as (c & file & Hin).
  destruct (finish_result s n c file Hs Hin)
    as (s2 & r & _ & Hrun & Hd & Hreq & Hcomp & Hinv & Hreg).
  rewrite Hrun in Hf. injection Hf as <-.
  assert (Hkeep : forall x, In x (compiling s2) <-> In x (compiling s) /\ fst (fst x) <> n).
  { intros x. rewrite Hcomp, filter_In. split; intros [Hx Hn]; split; try exact Hx.
    - apply negb_true_iff, Nat.eqb_neq in Hn. exact Hn.
    - apply negb_true_iff, Nat.eqb_neq. exact Hn. }
  assert (Hother : forall n' c' file', In (n', c', file') (compiling s2) -> c' <> c).
  { intros n' c' file' Hx ->. apply Hkeep in Hx as [Hx Hn]. simpl in Hn.
    assert (Heq : (n', c, file') = (n, c, file))
      by (apply (ServingFacts.NoDup_map_inj _ _ _ _ H3 Hx Hin); reflexivity).
    now injection Heq as ->. }
  split.
  - intros c' Ht Hsome.
    assert (Hold : is_Some (compilingNow (manager s) !! c') /\ c' <> c).
    { destruct (Js.truthy c) eqn:Htc.
      - destruct Hreg as (queue & _ & Hdel & _). rewrite Hdel in Hsome.
        destruct (decide (c = c')) as [<-|Hne].
        + rewrite lookup_delete_eq in Hsome. now destruct Hsome.
        + rewrite lookup_delete_ne in Hsome by exact Hne. split; [exact Hsome | congruence].
      - destruct Hreg as [Hsame _]. rewrite Hsame in Hsome. split; [exact Hsome |].
        intros ->. congruence. }
    destruct Hold as [Hold Hne].
    destruct (H1 c' Ht Hold) as (n' & file' & Hx).
    exists n', file'. apply Hkeep. split; [exact Hx |]. simpl. intros ->.
    assert (Heq : (n, c', file') = (n, c, file))
      by (apply (ServingFacts.NoDup_map_inj _ _ _ _ H4 Hx Hin); reflexivity).
    now injection Heq as ->.
  - intros n' c' file' Hx. pose proof (Hother _ _ _ Hx) as Hne.
    apply Hkeep in Hx as [Hx _]. pose proof (H2 _ _ _ Hx) as Hsome.
    destruct (Js.truthy c).
    + destruct Hreg as (queue & _ & Hdel & _). rewrite Hdel.
      now rewrite lookup_delete_ne by congruence.
    + destruct Hreg as [Hsame _]. now rewrite Hsame.
  - rewrite Hcomp. now apply ServingFacts.NoDup_map_filter.
  - rewrite Hcomp. now apply ServingFacts.NoDup_map_filter.
  - intros n' c' file' Hx. apply Hkeep in Hx as [Hx _]. rewrite Hreq. now apply (H5 n' c' file').
  - intros c' queue' w Hq Hw. rewrite Hreq.
    destruct (Js.truthy c).
    + destruct Hreg as (queue & _ & Hdel & _). rewrite Hdel in Hq.
      destruct (decide (c = c')) as [<-|Hne].
      * now rewrite lookup_delete_eq in Hq.
      * rewrite lookup_delete_ne in Hq by exact Hne. now apply (H6 c' queue' w).
    + destruct Hreg as [Hsame _]. rewrite Hsame in Hq. now apply (H6 c' queue' w).
  - intros n' c' file' Hx. apply Hkeep in Hx as [Hx _]. now apply (H7 n' c' file').
Qed.

Lemma Serialized_run (actions : list action) : forall (s s' : Server),
  Serialized s -> run host s actions = Some s' -> Serialized s'.
Proof.
  induction actions as [|a actions IH]; intros s s' Hs Hrun.
  - simpl in Hrun. now injection Hrun as <-.
  - simpl in Hrun. destruct (step host s a) as [s1|] eqn:Hstep; [| discriminate].
    apply (IH s1 s'); [| exact Hrun].
    destruct a as [n url|n]; simpl in Hstep.
    + now apply (Serialized_arrive s s1 n url).
    + now apply (Serialized_finish s s1 n).
Qed.

End Steps.
End ServingFacts.

(** Starting with an empty registry, after any sequence of arrivals and
    completions: a canonical path other than the empty string is a key of
    [compilingNow] if and only if a compilation for it runs, and no two
    compilations run for the same canonical path. *)
Theorem registry_tracks_compilations (host : Host) (m : Manager) (d : Disk)
    (actions : list action) (s : Server) :
  compilingNow m = ∅ ->
  run host (startServer m d) actions = Some s ->
  (forall c, c <> "" -> is_Some (compilingNow (manager s) !! c) <-> runningFor s c)
  /\ List.NoDup (map (fun x => snd (fst x)) (compiling s)).
Proof.
  intros He Hrun.
  pose proof (ServingFacts.Serialized_run host actions _ _
                (ServingFacts.Serialized_start m d He) Hrun) as [H1 H2 H3 _ _ _ _].
  split; [| exact H3].
  intros c Hc. split.
  - apply H1. now apply JsFacts.truthy_iff.
  - intros (n & file & Hin). now apply (H2 n c file).
Qed.

Lemma registry_tracks_compilations_witness :
  (forall c, c <> "" -> is_Some (compilingNow (manager twoArrived) !! c)
                        <-> runningFor twoArrived c)
  /\ List.NoDup (map (fun x => snd (fst x)) (compiling twoArrived)).
Proof.
  apply (registry_tracks_compilations Node.host servingManager Fixture.disk
           [Arrive 1 jqueryUrl; Arrive 2 jqueryUrl]).
  - reflexivity.
  - vm_compute. reflexivity.
Defined.

(** Two requests for the same compiled file: one compilation, the second
    request queued. *)
Example two_requests_one_compilation :
  map_to_list (compilingNow (manager twoArrived)) = [("jquery.js", [2])]
  /\ map (fun x => fst x) (compiling twoArrived) = [(1, "jquery.js")]
  /\ invoked twoArrived = ["jquery.js"]
  /\ delivered twoArrived = [].
Proof. vm_compute. repeat split; reflexivity. Qed.

(** When the compilation that a request started for a canonical path
    other than the empty string calls back, the registry entry is
    deleted and the queued requests, in the order of their arrival, and
    then the request itself leave with the same outcome: all go on to the
    static middleware if the compilation succeeded, all get its error
    otherwise.  No compilation for the path runs afterwards. *)
Theorem waiting_requests_released_together (host : Host) (m : Manager) (d : Disk)
    (actions : list action) (s : Server) (n : nat) (c : string) (file : Pending.t) :
  compilingNow m = ∅ ->
  run host (startServer m d) actions = Some s ->
  In (n, c, file) (compiling s) ->
  c <> "" ->
  exists queue s' called,
    compilingNow (manager s) !! c = Some queue
    /\ fst (compileAsset host (manager s) (disk s) file) = Return called
    /\ finish host n s = Some s'
    /\ delivered s' = delivered s ++ released queue n (howOf called)
    /\ compilingNow (manager s') !! c = None
    /\ ~ runningFor s' c
    /\ invoked s' = invoked s.
Proof.
  intros He Hrun Hin Hc.
  pose proof (ServingFacts.Serialized_run host actions _ _
                (ServingFacts.Serialized_start m d He) Hrun) as Hs.
  destruct (ServingFacts.finish_result host s n c file Hs Hin)
    as (s' & called & Hcalled & Hf & _ & _ & Hcomp & Hinv & Hreg).
  apply JsFacts.truthy_iff in Hc. rewrite Hc in Hreg.
  destruct Hreg as (queue & Hq & Hdel & Hdelivered).
  exists queue, s', called. repeat split; try assumption.
  - rewrite Hdel. apply lookup_delete_eq.
  - intros (n' & file' & Hx).
    pose proof (ServingFacts.Serialized_finish host s s' n Hs Hf) as Hs'.
    destruct (running_registry s' Hs' _ _ _ Hx) as [q Hq'].
    rewrite Hdel, lookup_delete_eq in Hq'. discriminate.
Qed.

Lemma waiting_requests_released_together_witness :
  exists queue s' called,
    compilingNow (manager threeArrived) !! "jquery.js" = Some queue
    /\ fst (compileAsset Node.host (manager threeArrived) (disk threeArrived) jqueryEntry)
       = Return called
    /\ finish Node.host 1 threeArrived = Some s'
    /\ delivered s' = delivered threeArrived ++ released queue 1 (howOf called)
    /\ compilingNow (manager s') !! "jquery.js" = None
    /\ ~ runningFor s' "jquery.js"
    /\ invoked s' = invoked threeArrived.
Proof.
  apply (waiting_requests_released_together Node.host servingManager Fixture.disk
           [Arrive 1 jqueryUrl; Arrive 2 jqueryUrl; Arrive 3 jqueryUrl]).
  - reflexivity.
  - vm_compute. reflexivity.
  - vm_compute. left. reflexivity.
  - discriminate.
Defined.

(** Three requests and the end of the compilation: the two queued
    requests and the first one go on to the static middleware, which finds
    the file written. *)
Example three_requests_served :
  (fun s => (delivered s, map_to_list (compilingNow (manager s)), invoked s,
             files (disk s) !! "/fixtures/simple-assets/asset-82470a0982f62504a81cf60128ff61a2-jquery.js"))
    <$> finish Node.host 1 threeArrived
  = Some ([(2, Served); (3, Served); (1, Served)], [], ["jquery.js"],
          Some ("window.jQuery = {};" +:+ Fixture.newline)).
Proof. vm_compute. reflexivity. Qed.

(** A request whose canonical path is the empty string sets
    [_canonicalAssetName] to a falsy value: when its compilation calls
    back, the handler passes the request on alone, the registry is left
    as it is, and the key stays although no compilation runs. *)
Theorem empty_canonical_name_stays (host : Host) (m : Manager) (d : Disk)
    (actions : list action) (s : Server) (n : nat) (file : Pending.t) :
  compilingNow m = ∅ ->
  run host (startServer m d) actions = Some s ->
  In (n, "", file) (compiling s) ->
  exists s' called,
    fst (compileAsset host (manager s) (disk s) file) = Return called
    /\ finish host n s = Some s'
    /\ delivered s' = delivered s ++ [(n, howOf called)]
    /\ compilingNow (manager s') = compilingNow (manager s)
    /\ is_Some (compilingNow (manager s') !! "")
    /\ ~ runningFor s' "".
Proof.
  intros He Hrun Hin.
  pose proof (ServingFacts.Serialized_run host actions _ _
                (ServingFacts.Serialized_start m d He) Hrun) as Hs.
  destruct (ServingFacts.finish_result host s n "" file Hs Hin)
    as (s' & called & Hcalled & Hf & _ & _ & Hcomp & _ & Hreg).
  simpl in Hreg. destruct Hreg as [Hsame Hdel].
  exists s', called. repeat split; try assumption.
  - rewrite Hsame. now apply (running_registry s Hs n "" file).
  - intros (n' & file' & Hx). rewrite Hcomp in Hx.
    apply filter_In in Hx as [Hx Hn]. simpl in Hn.
    apply negb_true_iff, Nat.eqb_neq in Hn.
    assert (Heq : (n', "", file') = (n, "", file))
      by (apply (ServingFacts.NoDup_map_inj _ _ _ _ (one_per_path s Hs) Hx Hin);
          reflexivity).
    now injection Heq as ->.
Qed.

Lemma empty_canonical_name_stays_witness :
  exists s' called,
    fst (compileAsset Node.host (manager emptyArrived) (disk emptyArrived) emptyEntry)
    = Return called
    /\ finish Node.host 1 emptyArrived = Some s'
    /\ delivered s' = delivered emptyArrived ++ [(1, howOf called)]
    /\ compilingNow (manager s') = compilingNow (manager emptyArrived)
    /\ is_Some (compilingNow (manager s') !! "")
    /\ ~ runningFor s' "".
Proof.
  apply (empty_canonical_name_stays Node.host servingManager Fixture.disk
           [Arrive 1 emptyUrl]).
  - reflexivity.
  - vm_compute. reflexivity.
  - vm_compute. left. reflexivity.
Defined.

(** The bundle defined under the empty identifier: after its
    compilation the key is still in the registry. *)
Example empty_identifier_leaks :
  (fun s => (delivered s, map_to_list (compilingNow (manager s)), compiling s))
    <$> finish Node.host 1 emptyArrived
  = Some ([(1, Served)], [("", [])], []).
Proof. vm_compute. reflexivity. Qed.
